(** * Dragonflow L3 controller plugin: port events, ARP notifications, scheduling

    A shallow embedding of
    [dragonflow/neutron/services/l3/l3_controller_plugin.py].

    Python values are an inductive type; dictionaries that the plugin
    receives, passes around and mutates (ports, fixed-ip entries, removed-router
    entries) live in a store and are handled by reference, so that in-place
    updates and aliasing are visible.  Every function of the plugin is a
    computation in a state-and-exception monad: the state carries the store,
    the calls made on the RPC notifier, the calls made on the router scheduler
    and the log.  The Neutron collaborators (core plugin, agent registry, ML2
    binding lookup, constants of [neutron.common.constants] and
    [neutron.plugins.ml2.driver_api]) are the fields of a record [env]. *)

From Stdlib Require Import ZArith String Ascii List.
From stdpp Require Import gmap strings list fin_maps.

Set Warnings "-register-all".

Open Scope string_scope.
Open Scope list_scope.

(** ** Values *)

Definition loc := nat.

(** A request context ([neutron.context.Context]): the plugin only reads
    [is_admin] and calls [elevated()]. *)
Record context := Context { ctx_user : string; is_admin : bool }.

Inductive pyval : Type :=
| VNone
| VBool (b : bool)
| VInt (n : Z)
| VStr (s : string)
| VList (xs : list pyval)
| VRef (l : loc)               (* a dict object, by reference *)
| VCtx (c : context).

Abbreviation pydict := (gmap string pyval).
Abbreviation heap := (gmap loc (gmap string pyval)).

Inductive exn :=
| KeyError
| IndexError
| TypeError
| AttributeError
| UnboundLocalError
| CollaboratorError (name : string).

Inductive result (A : Type) : Type :=
| Ok (a : A)
| Raise (e : exn).
Arguments Ok {A} a.
Arguments Raise {A} e.

(** An agent row of the registry; the plugin reads [topic] and [host]. *)
Record agent := Agent { agent_id : string; topic : string; host : string }.

(** The bound port context handed out by ML2: [port_context.current] and
    [port_context.network.network_segments]. *)
Record port_context := PortContext { current : pyval; network_segments : pyval }.

(** ** Observable effects *)

(** Calls on [self.l3_rpc_notifier]; [RpcCast] is
    [client.prepare(topic, server, version).cast(context, method, payload)]. *)
Inductive rpc_event :=
| RpcAddArpEntry (context router_id arp_table operation : pyval)
| RpcDelArpEntry (context router_id arp_table operation : pyval)
| RpcRouterDeleted (context router_id : pyval)
| RpcRoutersUpdated (context : pyval) (router_ids : list pyval)
                    (operation : string) (data : pydict)
| RpcCast (cast_topic cast_server cast_version : string) (context : pyval)
          (method : string) (payload : pydict).

(** Calls on [self.router_scheduler]. *)
Inductive sched_event :=
| SchedGetRoutersToSchedule (context router_ids : pyval)
| SchedBindRouters (context routers : pyval) (l3_agent : agent).

Inductive log_level := DEBUG | WARNING.

Record log_event := Log {
  log_lvl : log_level;
  log_fmt : string;
  log_args : list (string * pyval)
}.

Record state := State {
  st_heap : heap;
  st_rpc : list rpc_event;
  st_sched : list sched_event;
  st_log : list log_event
}.

(** ** Collaborators *)

Record env := Env {
  (* neutron.common.constants / neutron.plugins.ml2.driver_api *)
  ROUTER_INTERFACE_OWNERS : list string;
  AGENT_TYPE_L3 : string;
  NETWORK_TYPE : string;
  SEGMENTATION_ID : string;
  PHYSICAL_NETWORK : string;
  (* NeutronManager.get_service_plugins().get(L3_ROUTER_NAT) is not None *)
  l3plugin_registered : bool;
  (* self._core_plugin *)
  get_port : pyval -> pyval -> result pyval;
  get_subnet : pyval -> pyval -> result pyval;
  (* NeutronManager.get_plugin().get_bound_port_context *)
  get_bound_port_context : pyval -> pyval -> pyval -> option port_context;
  (* agent registry *)
  get_l3_agents : pyval -> list agent;
  get_enabled_agent_on_host : pyval -> string -> pyval -> option agent;
  (* context.elevated() *)
  elevated : context -> context;
  (* self.router_scheduler, with its _get_routers_to_schedule *)
  router_scheduler : option (pyval -> pyval -> pyval)
}.

(** ** The monad *)

Definition M (A : Type) : Type := state -> result A * state.

Definition ret {A} (a : A) : M A := fun s => (Ok a, s).

Definition raise {A} (e : exn) : M A := fun s => (Raise e, s).

Definition bind {A B} (m : M A) (k : A -> M B) : M B :=
  fun s => match m s with
           | (Ok a, s') => k a s'
           | (Raise e, s') => (Raise e, s')
           end.

Notation "'let*' x := m 'in' k" := (bind m (fun x => k))
  (at level 10, x name, m at level 100, k at level 200).
Notation "m ;; k" := (bind m (fun _ => k))
  (at level 100, k at level 200, right associativity).

Definition lift {A} (r : result A) : M A := fun s => (r, s).

(** [attempt m] runs [m] and hands its outcome to a [try] statement. *)
Definition attempt {A} (m : M A) : M (result A) :=
  fun s => let (r, s') := m s in (Ok r, s').

Definition with_heap {A} (f : heap -> result A) : M A :=
  fun s => (f (st_heap s), s).

Definition emit (e : rpc_event) : M unit :=
  fun s => (Ok tt, State (st_heap s) (st_rpc s ++ [e]) (st_sched s) (st_log s)).

Definition emit_sched (e : sched_event) : M unit :=
  fun s => (Ok tt, State (st_heap s) (st_rpc s) (st_sched s ++ [e]) (st_log s)).

Definition log (lvl : log_level) (fmt : string) (args : list (string * pyval))
  : M unit :=
  fun s => (Ok tt, State (st_heap s) (st_rpc s) (st_sched s)
                         (st_log s ++ [Log lvl fmt args])).

Fixpoint mapM {A B} (f : A -> M B) (xs : list A) : M (list B) :=
  match xs with
  | [] => ret []
  | x :: xs' => let* y := f x in let* ys := mapM f xs' in ret (y :: ys)
  end.

Fixpoint for_each {A} (xs : list A) (body : A -> M unit) : M unit :=
  match xs with
  | [] => ret tt
  | x :: xs' => body x ;; for_each xs' body
  end.

(** ** Python primitives *)

(** [needle in hay] for strings. *)
Fixpoint substring_of (needle hay : string) : bool :=
  String.prefix needle hay ||
  match hay with
  | EmptyString => false
  | String _ hay' => substring_of needle hay'
  end.

Definition py_index {A} (xs : list A) (i : Z) : option A :=
  let n := Z.of_nat (length xs) in
  if (0 <=? i)%Z then xs !! Z.to_nat i
  else if (0 <=? n + i)%Z then xs !! Z.to_nat (n + i)
  else None.

Definition chars (s : string) : list pyval :=
  map (fun c => VStr (String c EmptyString)) (list_ascii_of_string s).

Definition py_seq_item (xs : list pyval) (k : pyval) : result pyval :=
  match k with
  | VInt i => match py_index xs i with Some v => Ok v | None => Raise IndexError end
  | VBool b => match py_index xs (Z.b2z b) with
               | Some v => Ok v | None => Raise IndexError end
  | _ => Raise TypeError
  end.

(** [o[k]] *)
Definition py_getitem (h : heap) (o k : pyval) : result pyval :=
  match o with
  | VRef l =>
      match h !! l with
      | Some d =>
          match k with
          | VStr key => match d !! key with
                        | Some v => Ok v
                        | None => Raise KeyError
                        end
          | VList _ | VRef _ => Raise TypeError   (* unhashable key *)
          | _ => Raise KeyError       (* the dicts of the store have string keys *)
          end
      | None => Raise TypeError
      end
  | VList xs => py_seq_item xs k
  | VStr s => py_seq_item (chars s) k
  | VNone | VBool _ | VInt _ | VCtx _ => Raise TypeError
  end.

(** [o[key] = v] *)
Definition py_setitem (h : heap) (o : pyval) (key : string) (v : pyval)
  : result heap :=
  match o with
  | VRef l =>
      match h !! l with
      | Some d => Ok (<[l := <[key := v]> d]> h)
      | None => Raise TypeError
      end
  | _ => Raise TypeError
  end.

(** [needle in hay] with a string on the left. *)
Definition py_str_in (h : heap) (needle : string) (hay : pyval) : result bool :=
  match hay with
  | VStr s => Ok (substring_of needle s)
  | VList xs =>
      Ok (existsb (fun x => match x with
                            | VStr t => String.eqb t needle
                            | _ => false
                            end) xs)
  | VRef l =>
      match h !! l with
      | Some d => Ok (bool_decide (is_Some (d !! needle)))
      | None => Raise TypeError
      end
  | VNone | VBool _ | VInt _ | VCtx _ => Raise TypeError
  end.

(** [v in xs] where [xs] is a tuple of strings. *)
Definition py_in_strs (v : pyval) (xs : list string) : bool :=
  match v with
  | VStr s => existsb (String.eqb s) xs
  | _ => false
  end.

(** [len(v)] *)
Definition py_len (h : heap) (v : pyval) : result nat :=
  match v with
  | VStr s => Ok (String.length s)
  | VList xs => Ok (length xs)
  | VRef l => match h !! l with
              | Some d => Ok (size d)
              | None => Raise TypeError
              end
  | VNone | VBool _ | VInt _ | VCtx _ => Raise TypeError
  end.

(** The elements a [for] loop or a comprehension visits. *)
Definition py_iter (h : heap) (v : pyval) : result (list pyval) :=
  match v with
  | VList xs => Ok xs
  | VStr s => Ok (chars s)
  | VRef l => match h !! l with
              | Some d => Ok (map (fun kv => VStr (fst kv)) (map_to_list d))
              | None => Raise TypeError
              end
  | VNone | VBool _ | VInt _ | VCtx _ => Raise TypeError
  end.

(** Truth value of an object. *)
Definition py_truthy (h : heap) (v : pyval) : bool :=
  match v with
  | VNone => false
  | VBool b => b
  | VInt n => negb (n =? 0)%Z
  | VStr s => negb (String.eqb s "")
  | VList xs => match xs with [] => false | _ => true end
  | VRef l => match h !! l with
              | Some d => negb (bool_decide (d = ∅))
              | None => true
              end
  | VCtx _ => true
  end.

Definition getitem (o k : pyval) : M pyval :=
  with_heap (fun h => py_getitem h o k).

Definition setitem (o : pyval) (key : string) (v : pyval) : M unit :=
  fun s => match py_setitem (st_heap s) o key v with
           | Ok h' => (Ok tt, State h' (st_rpc s) (st_sched s) (st_log s))
           | Raise e => (Raise e, s)
           end.

Definition str_in (needle : string) (hay : pyval) : M bool :=
  with_heap (fun h => py_str_in h needle hay).

Definition len (v : pyval) : M nat := with_heap (fun h => py_len h v).

Definition iter (v : pyval) : M (list pyval) := with_heap (fun h => py_iter h v).

Definition truthy (v : pyval) : M bool :=
  with_heap (fun h => Ok (py_truthy h v)).

(** [kwargs.get(key)] and [kwargs[key]] *)
Definition kwargs_get (kwargs : pydict) (key : string) : pyval :=
  default VNone (kwargs !! key).

Definition kwargs_item (kwargs : pydict) (key : string) : M pyval :=
  match kwargs !! key with
  | Some v => ret v
  | None => raise KeyError
  end.

(** Reading a local variable that may not have been assigned. *)
Definition read_local (x : option pyval) : M pyval :=
  match x with
  | Some v => ret v
  | None => raise UnboundLocalError
  end.

(** ** The plugin *)

Section Plugin.

Variable E : env.

(** A method call on the object the service-plugin registry returns for
    [L3_ROUTER_NAT]: an attribute access on [None] when nothing is registered. *)
Definition l3plugin_call {A} (m : M A) : M A :=
  if l3plugin_registered E then m else raise AttributeError.

Definition is_vm_port_with_ip_addresses (port_dict : pyval) : M bool :=
  let* device_owner := getitem port_dict (VStr "device_owner") in
  let* is_vm_port := str_in "compute:" device_owner in
  let* fixed_ips := getitem port_dict (VStr "fixed_ips") in
  let* n := len fixed_ips in
  let has_ip_addresses := (0 <? n)%nat in
  ret (is_vm_port && has_ip_addresses).

(** [[get_subnet(context, fixed_ip['subnet_id']) for fixed_ip in fixed_ips]] *)
Definition subnets_of (context fixed_ips : pyval) : M pyval :=
  let* items := iter fixed_ips in
  let* subnets :=
    mapM (fun fixed_ip =>
            let* subnet_id := getitem fixed_ip (VStr "subnet_id") in
            lift (get_subnet E context subnet_id)) items in
  ret (VList subnets).

(** The payload [{'router_id': 0, 'arp_table': data}]. *)
Definition dvr_arptable (data : pyval) : pydict :=
  <["router_id" := VInt 0]> (<["arp_table" := data]> ∅).

Definition _agent_notification_arp (context : pyval) (method : string)
  (data : pyval) : M pyval :=
  let* admin_context :=
    match context with
    | VCtx c => ret (if is_admin c then context else VCtx (elevated E c))
    | _ => raise AttributeError
    end in
  let* l3_agents := l3plugin_call (ret (get_l3_agents E admin_context)) in
  for_each l3_agents (fun l3_agent =>
    log DEBUG "Casting message %(method)s with topic %(topic)s"
        [("topic", VStr (topic l3_agent ++ "." ++ host l3_agent)%string);
         ("method", VStr method)] ;;
    emit (RpcCast (topic l3_agent) (host l3_agent) "1.2"
                  context method (dvr_arptable data))) ;;
  ret VNone.

Definition _add_arp_entry (context router_id arp_table operation : pyval)
  : M pyval :=
  let* t := truthy router_id in
  if t then
    emit (RpcAddArpEntry context router_id arp_table operation) ;; ret VNone
  else _agent_notification_arp context "add_arp_entry" arp_table.

Definition _del_arp_entry (context router_id arp_table operation : pyval)
  : M pyval :=
  let* t := truthy router_id in
  if t then
    emit (RpcDelArpEntry context router_id arp_table operation) ;; ret VNone
  else _agent_notification_arp context "del_arp_entry" arp_table.

Definition _send_new_port_notify (context notify_port : pyval)
  (action : string) (router_id segmentation_id : pyval) : M pyval :=
  setitem notify_port "segmentation_id" segmentation_id ;;
  if String.eqb action "add" then
    _add_arp_entry context router_id notify_port VNone
  else if String.eqb action "del" then
    _del_arp_entry context router_id notify_port VNone
  else
    (* notify_action was never assigned *)
    raise UnboundLocalError.

(** The dict literal [entry] of [get_ml2_port_bond_data]. *)
Definition bond_entry (port_id device_id port segment : pyval)
  : M (option pydict) :=
  let* network_id := getitem port (VStr "network_id") in
  let* mac_address := getitem port (VStr "mac_address") in
  let* admin_state_up := getitem port (VStr "admin_state_up") in
  let* network_type := getitem segment (VStr (NETWORK_TYPE E)) in
  let* segmentation_id := getitem segment (VStr (SEGMENTATION_ID E)) in
  let* physical_network := getitem segment (VStr (PHYSICAL_NETWORK E)) in
  let* fixed_ips := getitem port (VStr "fixed_ips") in
  let* device_owner := getitem port (VStr "device_owner") in
  let entry : pydict :=
    <["device" := device_id]> (
    <["network_id" := network_id]> (
    <["port_id" := port_id]> (
    <["mac_address" := mac_address]> (
    <["admin_state_up" := admin_state_up]> (
    <["network_type" := network_type]> (
    <["segmentation_id" := segmentation_id]> (
    <["physical_network" := physical_network]> (
    <["fixed_ips" := fixed_ips]> (
    <["device_owner" := device_owner]> ∅))))))))) in
  log DEBUG "Returning: %s" (map_to_list entry) ;;
  ret (Some entry).

Definition get_ml2_port_bond_data (ctx port_id device_id : pyval)
  : M (option pydict) :=
  match get_bound_port_context E ctx port_id device_id with
  | None =>
      log WARNING
          "Device %(device)s requested by agent %(agent_id)s not found in database"
          [("device", device_id); ("agent_id", port_id)] ;;
      ret None
  | Some port_context =>
      let port := current port_context in
      let* tried := attempt (getitem (network_segments port_context) (VInt 0)) in
      match tried with
      | Ok segment => bond_entry port_id device_id port segment
      | Raise KeyError =>
          (* except KeyError: the assignment to segment did not happen *)
          let* segment := read_local None in
          let* t := truthy segment in
          if negb t then
            let* network_id := getitem port (VStr "network_id") in
            log WARNING
                "Device %(device)s requested by agent  on network %(network_id)s not bound, vif_type: "
                [("device", device_id); ("network_id", network_id)] ;;
            ret (Some ∅)
          else bond_entry port_id device_id port segment
      | Raise e => raise e
      end
  end.

Definition _get_segmentation_id (context port : pyval) : M pyval :=
  let* port_id := getitem port (VStr "id") in
  let* host_id := getitem port (VStr "binding:host_id") in
  let* port_data := get_ml2_port_bond_data context port_id host_id in
  match port_data with
  | None => ret (VInt 0)
  | Some d => ret (default (VInt 0) (d !! "segmentation_id"))
  end.

Definition add_vm_port (context port_dict : pyval) : M pyval :=
  let* port_id := getitem port_dict (VStr "id") in
  let* notify_port := lift (get_port E context port_id) in
  let* fixed_ips := getitem notify_port (VStr "fixed_ips") in
  let* subnets := subnets_of context fixed_ips in
  setitem notify_port "subnets" subnets ;;
  let* device_owner := getitem notify_port (VStr "device_owner") in
  let* router_id :=
    if py_in_strs device_owner (ROUTER_INTERFACE_OWNERS E)
    then getitem notify_port (VStr "device_id")
    else ret (VInt 0) in
  let* segmentation_id := _get_segmentation_id context notify_port in
  _send_new_port_notify context notify_port "add" router_id segmentation_id.

Definition add_port (context port_dict : pyval) : M pyval :=
  let* eligible := is_vm_port_with_ip_addresses port_dict in
  if eligible then add_vm_port context port_dict else ret VNone.

Definition remove_vm_port (context port_dict : pyval) : M pyval :=
  let* fixed_ips := getitem port_dict (VStr "fixed_ips") in
  let* subnets := subnets_of context fixed_ips in
  setitem port_dict "subnets" subnets ;;
  _send_new_port_notify context port_dict "del" (VInt 0) (VInt 0).

Definition remove_port (context port_dict : pyval) : M pyval :=
  let* eligible := is_vm_port_with_ip_addresses port_dict in
  if eligible then remove_vm_port context port_dict else ret VNone.

Definition remove_router_from_l3_agent (context agent_id router_id : pyval)
  : M pyval :=
  emit (RpcRouterDeleted context router_id) ;; ret VNone.

Definition delete_router_interface (context notify_port : pyval) : M pyval :=
  let* device_id := getitem notify_port (VStr "device_id") in
  emit (RpcRoutersUpdated context [device_id] "del_interface"
                          (<["port" := notify_port]> ∅)) ;;
  ret VNone.

Definition auto_schedule_routers (context host router_ids : pyval) : M pyval :=
  match get_enabled_agent_on_host E context (AGENT_TYPE_L3 E) host with
  | None => ret (VBool false)
  | Some l3_agent =>
      match router_scheduler E with
      | Some _get_routers_to_schedule =>
          emit_sched (SchedGetRoutersToSchedule context router_ids) ;;
          let unscheduled_rs := _get_routers_to_schedule context router_ids in
          emit_sched (SchedBindRouters context unscheduled_rs l3_agent) ;;
          ret VNone
      | None => ret VNone
      end
  end.

(** ** The event callbacks *)

Definition _notify_l3_agent_new_port (resource event trigger : pyval)
  (kwargs : pydict) : M pyval :=
  log DEBUG "Received %s %s" [("", resource); ("", event)] ;;
  let port := kwargs_get kwargs "port" in
  match port with
  | VNone => ret VNone
  | _ =>
      let mac_address_updated := kwargs_get kwargs "mac_address_updated" in
      let update_device_up := kwargs_get kwargs "update_device_up" in
      let context := kwargs_get kwargs "context" in
      match context with
      | VNone =>
          log WARNING "Received %(resource)s %(event)s without context [%(port)s]"
              [("resource", resource); ("event", event); ("port", port)] ;;
          ret VNone
      | _ =>
          let* a := truthy mac_address_updated in
          let* b := truthy update_device_up in
          if a || b then l3plugin_call (add_port context port) else ret VNone
      end
  end.

Definition _notify_l3_agent_delete_port (event resource trigger : pyval)
  (kwargs : pydict) : M pyval :=
  let* context := kwargs_item kwargs "context" in
  let* port := kwargs_item kwargs "port" in
  let* removed_routers := kwargs_item kwargs "removed_routers" in
  l3plugin_call (remove_port context port) ;;
  let* device_owner := getitem port (VStr "device_owner") in
  (if py_in_strs device_owner (ROUTER_INTERFACE_OWNERS E)
   then delete_router_interface context port
   else ret VNone) ;;
  let* routers := iter removed_routers in
  for_each routers (fun router =>
    let* agent_id := getitem router (VStr "agent_id") in
    let* router_id := getitem router (VStr "router_id") in
    remove_router_from_l3_agent context agent_id router_id ;; ret tt) ;;
  ret VNone.

End Plugin.

(** ** The RPC handler [get_ports_by_subnet] *)

Section PortsBySubnet.

Variable E : env.

(** [super(ControllerL3ServicePlugin, self).get_ports_by_subnet], the handler
    of the parent class that this one extends. *)
Variable super_get_ports_by_subnet : pyval -> pydict -> result pyval.

Definition get_ports_by_subnet (context : pyval) (kwargs : pydict) : M pyval :=
  let* result := lift (super_get_ports_by_subnet context kwargs) in
  let* nonempty := truthy result in
  (if nonempty then
     let* ports := iter result in
     for_each ports (fun port =>
       let* port_id := getitem port (VStr "id") in
       let* host_id := getitem port (VStr "binding:host_id") in
       let* port_data := get_ml2_port_bond_data E context port_id host_id in
       match port_data with
       | None =>
           (* "segmentation_id" in None *)
           raise TypeError
       | Some d =>
           let* segmentation_id :=
             if bool_decide (is_Some (d !! "segmentation_id"))
             then match d !! "segmentation_id" with
                  | Some v => ret v
                  | None => raise KeyError
                  end
             else ret (VInt 0) in
           setitem port "segmentation_id" segmentation_id
       end)
   else ret tt) ;;
  ret result.

End PortsBySubnet.

(** ** Vocabulary of the statements *)

Definition heap_of (s : state) (h : heap) : state :=
  State h (st_rpc s) (st_sched s) (st_log s).

(** The context [get_l3_agents] is asked with. *)
Definition admin_context (E : env) (c : context) : pyval :=
  if is_admin c then VCtx c else VCtx (elevated E c).

(** The one-way message of a broadcast that goes to agent [a]. *)
Definition cast_to (context : pyval) (method : string) (data : pyval)
  (a : agent) : rpc_event :=
  RpcCast (topic a) (host a) "1.2" context method (dvr_arptable data).

Definition cast_log (method : string) (a : agent) : log_event :=
  Log DEBUG "Casting message %(method)s with topic %(topic)s"
      [("topic", VStr (topic a ++ "." ++ host a)%string); ("method", VStr method)].

(** [o] is a dict of the store [h] that maps [key] to [v]. *)
Definition has_item (h : heap) (o : pyval) (key : string) (v : pyval) : Prop :=
  exists l d, o = VRef l /\ h !! l = Some d /\ d !! key = Some v.

(** Every fixed-ip entry carries a subnet id that the core plugin resolves;
    [subnets] are the results, in order. *)
Definition subnets_resolve (E : env) (context : pyval) (h : heap)
  (fixed_ips subnets : list pyval) : Prop :=
  Forall2 (fun fixed_ip subnet =>
             exists subnet_id,
               has_item h fixed_ip "subnet_id" subnet_id /\
               get_subnet E context subnet_id = Ok subnet)
          fixed_ips subnets.

(** The same collaborators with another ML2 binding lookup. *)
Definition with_binding (E : env)
  (binding : pyval -> pyval -> pyval -> option port_context) : env :=
  Env (ROUTER_INTERFACE_OWNERS E) (AGENT_TYPE_L3 E) (NETWORK_TYPE E)
      (SEGMENTATION_ID E) (PHYSICAL_NETWORK E) (l3plugin_registered E)
      (get_port E) (get_subnet E) binding (get_l3_agents E)
      (get_enabled_agent_on_host E) (elevated E) (router_scheduler E).

(** [msg] is a one-way message to agent [a], on that agent's own topic and
    host, whose payload has [router_id] 0 and carries [arp_table]. *)
Definition addressed_cast (context : pyval) (method : string)
  (arp_table : pyval) (a : agent) (msg : rpc_event) : Prop :=
  exists payload,
    msg = RpcCast (topic a) (host a) "1.2" context method payload /\
    payload !! "router_id" = Some (VInt 0) /\
    payload !! "arp_table" = Some arp_table.

(** The store after [remove_vm_port] on the port dict [d] at [l]. *)
Definition removed_port_store (h : heap) (l : loc) (d : pydict)
  (subnets : list pyval) : heap :=
  <[l := <["segmentation_id" := VInt 0]> (<["subnets" := VList subnets]> d)]> h.

(** [m] may write to the log and does nothing else. *)
Definition log_only {A} (m : M A) : Prop :=
  forall s,
    st_heap (snd (m s)) = st_heap s /\
    st_rpc (snd (m s)) = st_rpc s /\
    st_sched (snd (m s)) = st_sched s.

(** The store once [add_vm_port] has stored [subnets] and [segmentation_id]
    in the port dict [dn] at [ln]. *)
Definition added_port_store (h : heap) (ln : loc) (dn : pydict)
  (subnets : list pyval) (segmentation_id : pyval) : heap :=
  <[ln := <["segmentation_id" := segmentation_id]>
            (<["subnets" := VList subnets]> dn)]> h.

(** [entry] is a removed-router entry of the store [h] that names an agent
    and the router [router_id]. *)
Definition removed_router_entry (h : heap) (entry router_id : pyval) : Prop :=
  exists agent_id,
    has_item h entry "agent_id" agent_id /\
    has_item h entry "router_id" router_id.

(** What the delete callback sends for the port itself: the ARP broadcast
    when the port is eligible, then the interface update when its owner is a
    router-interface owner. *)
Definition delete_port_rpc (E : env) (c : context) (l : loc) (owner : string)
  (eligible : bool) (device_id : pyval) : list rpc_event :=
  (if eligible
   then map (cast_to (VCtx c) "del_arp_entry" (VRef l))
            (get_l3_agents E (admin_context E c))
   else []) ++
  (if py_in_strs (VStr owner) (ROUTER_INTERFACE_OWNERS E)
   then [RpcRoutersUpdated (VCtx c) [device_id] "del_interface"
                           (<["port" := VRef l]> ∅)]
   else []).

(** The log lines of the callbacks and of the resolver. *)
Definition received_line (resource event : pyval) : log_event :=
  Log DEBUG "Received %s %s" [("", resource); ("", event)].

Definition without_context_line (resource event port : pyval) : log_event :=
  Log WARNING "Received %(resource)s %(event)s without context [%(port)s]"
      [("resource", resource); ("event", event); ("port", port)].

Definition not_found_line (device_id port_id : pyval) : log_event :=
  Log WARNING
      "Device %(device)s requested by agent %(agent_id)s not found in database"
      [("device", device_id); ("agent_id", port_id)].

(** [kwargs.get(key)] is [None]: the key is missing or bound to [None]. *)
Definition get_is_None (kwargs : pydict) (key : string) : Prop :=
  kwargs !! key = None \/ kwargs !! key = Some VNone.

(** The state [s'] differs from [s] in the log at most. *)
Definition same_but_log (s s' : state) : Prop :=
  st_heap s' = st_heap s /\ st_rpc s' = st_rpc s /\ st_sched s' = st_sched s.

(** The ten keys of the binding info built by [get_ml2_port_bond_data]. *)
Definition bond_keys : list string :=
  ["device"; "network_id"; "port_id"; "mac_address"; "admin_state_up";
   "network_type"; "segmentation_id"; "physical_network"; "fixed_ips";
   "device_owner"].

(** The binding info [entry]. *)
Definition binding_info (device network_id port_id mac_address admin_state_up
  network_type segmentation_id physical_network fixed_ips device_owner : pyval)
  : pydict :=
  list_to_map
    [("device", device); ("network_id", network_id); ("port_id", port_id);
     ("mac_address", mac_address); ("admin_state_up", admin_state_up);
     ("network_type", network_type); ("segmentation_id", segmentation_id);
     ("physical_network", physical_network); ("fixed_ips", fixed_ips);
     ("device_owner", device_owner)].

(** The port [port] of the store [h] is bound, and [segment] is the first
    segment of its network: the port names its id and host, the binding store
    has a context for the pair, the context's port has the five fields the
    binding info copies, and the segment has a network type and a physical
    network. *)
Definition bound_to (E : env) (context : pyval) (h : heap)
  (port segment : pyval) : Prop :=
  exists port_id host_id pc others,
    has_item h port "id" port_id /\
    has_item h port "binding:host_id" host_id /\
    get_bound_port_context E context port_id host_id = Some pc /\
    network_segments pc = VList (segment :: others) /\
    (forall key, key ∈ ["network_id"; "mac_address"; "admin_state_up";
                        "fixed_ips"; "device_owner"] ->
                 exists v, has_item h (current pc) key v) /\
    (exists v, has_item h segment (NETWORK_TYPE E) v) /\
    (exists v, has_item h segment (PHYSICAL_NETWORK E) v).

(** [o] is a dict of the store [h] without the key [key]. *)
Definition lacks_item (h : heap) (o : pyval) (key : string) : Prop :=
  exists l d, o = VRef l /\ h !! l = Some d /\ d !! key = None.


(** ** A small deployment, for the concrete instances *)

Module Sample.

Definition user_ctx : context := Context "demo" false.
Definition ctx : pyval := VCtx user_ctx.

Definition dict (kvs : list (string * pyval)) : pydict := list_to_map kvs.

(* 1: VM port p1 as the event carries it; 4: p1 as the core plugin returns it *)
Definition p1 : pydict :=
  dict [("id", VStr "p1"); ("device_owner", VStr "compute:nova");
        ("device_id", VStr "vm1"); ("fixed_ips", VList [VRef 2]);
        ("binding:host_id", VStr "hostA"); ("network_id", VStr "n1");
        ("mac_address", VStr "fa:16:3e:00:00:01");
        ("admin_state_up", VBool true)].
Definition fixed_ip1 : pydict :=
  dict [("subnet_id", VStr "s1"); ("ip_address", VStr "10.0.0.5")].
Definition subnet1 : pydict :=
  dict [("id", VStr "s1"); ("cidr", VStr "10.0.0.0/24")].
(* 5: the segment p1 is bound to *)
Definition segment1 (segmentation_id : pyval) : pydict :=
  dict [("network_type", VStr "vxlan"); ("segmentation_id", segmentation_id);
        ("physical_network", VNone)].
(* 6, 8: removed-router entries; 7: router-interface port p2 *)
Definition removed (agent : string) : pydict :=
  dict [("router_id", VStr "r7"); ("agent_id", VStr agent)].
Definition p2 : pydict :=
  dict [("id", VStr "p2"); ("device_owner", VStr "network:router_interface");
        ("device_id", VStr "r7"); ("fixed_ips", VList [VRef 2]);
        ("binding:host_id", VStr "hostA")].

Definition store (segmentation_id : pyval) : heap :=
  list_to_map [(1, p1); (2, fixed_ip1); (3, subnet1);
               (4, p1); (5, segment1 segmentation_id);
               (6, removed "a3"); (7, p2);
               (8, removed "a4")].

Definition st (segmentation_id : pyval) : state :=
  State (store segmentation_id) [] [] [].
Definition st0 : state := st (VInt 1001).

Definition agents : list agent :=
  [Agent "a1" "l3_agent" "hostA"; Agent "a3" "l3_agent" "hostB"].

Definition E (fetched_p1 network_segments : pyval) : env := {|
  ROUTER_INTERFACE_OWNERS :=
    ["network:router_interface"; "network:router_interface_distributed"];
  AGENT_TYPE_L3 := "L3 agent";
  NETWORK_TYPE := "network_type";
  SEGMENTATION_ID := "segmentation_id";
  PHYSICAL_NETWORK := "physical_network";
  l3plugin_registered := true;
  get_port := fun _ port_id =>
    match port_id with
    | VStr "p1" => Ok fetched_p1
    | VStr "p2" => Ok (VRef 7)
    | _ => Raise (CollaboratorError "PortNotFound")
    end;
  get_subnet := fun _ subnet_id =>
    match subnet_id with
    | VStr "s1" => Ok (VRef 3)
    | _ => Raise (CollaboratorError "SubnetNotFound")
    end;
  get_bound_port_context := fun _ port_id host_id =>
    match port_id, host_id with
    | VStr "p1", VStr "hostA" => Some (PortContext (VRef 4) network_segments)
    | _, _ => None
    end;
  get_l3_agents := fun _ => agents;
  get_enabled_agent_on_host := fun _ _ h =>
    match h with
    | VStr "hostA" => Some (Agent "a1" "l3_agent" "hostA")
    | _ => None
    end;
  elevated := fun c => Context (ctx_user c) true;
  router_scheduler := Some (fun _ router_ids => router_ids)
|}.

Definition E0 : env := E (VRef 4) (VList [VRef 5]).

(* AFTER_DELETE of the router-interface port p2, one router removed *)
Definition delete_event (removed_entry : pyval) : pydict :=
  dict [("context", ctx); ("port", VRef 7);
        ("removed_routers", VList [removed_entry])].

(* AFTER_CREATE of the VM port p1 *)
Definition create_event (mac_address_updated : pyval) : pydict :=
  dict [("context", ctx); ("port", VRef 1);
        ("mac_address_updated", mac_address_updated)].
Definition create_event_without_context : pydict :=
  dict [("port", VRef 1); ("mac_address_updated", VBool true)].

(* AFTER_DELETE of p2 with any list of removed-router entries *)
Definition delete_event_of (entries : list pyval) : pydict :=
  dict [("context", ctx); ("port", VRef 7);
        ("removed_routers", VList entries)].

(* the parent handler answers with a fixed list of ports *)
Definition super_ports (ports : pyval) : pyval -> pydict -> result pyval :=
  fun _ _ => Ok ports.

(* the core plugin returns a router-interface port for p1 *)
Definition E1 : env := E (VRef 7) (VList [VRef 5]).

End Sample.

(** ** Running computations *)

Section Run.

Context {A B : Type}.

Lemma bind_Ok (m : M A) (k : A -> M B) s a s' :
  m s = (Ok a, s') -> bind m k s = k a s'.
Proof. unfold bind. intros ->. reflexivity. Qed.

Lemma bind_ret (a : A) (k : A -> M B) s : bind (ret a) k s = k a s.
Proof. reflexivity. Qed.

End Run.

Lemma getitem_has_item h o key v :
  has_item h o key v -> py_getitem h o (VStr key) = Ok v.
Proof.
  intros (l & d & -> & Hl & Hk). unfold py_getitem. rewrite Hl, Hk. reflexivity.
Qed.

Lemma getitem_run s o key v :
  has_item (st_heap s) o key v -> getitem o (VStr key) s = (Ok v, s).
Proof.
  intros H. unfold getitem, with_heap. rewrite (getitem_has_item _ _ _ _ H).
  reflexivity.
Qed.

Lemma setitem_run s l d key v :
  st_heap s !! l = Some d ->
  setitem (VRef l) key v s =
    (Ok tt, heap_of s (<[l := <[key := v]> d]> (st_heap s))).
Proof.
  intros H. unfold setitem, py_setitem. rewrite H. reflexivity.
Qed.

(** The comprehension over the fixed ips reads the store and changes nothing. *)
Lemma subnets_of_run E context s fixed_ips subnets :
  subnets_resolve E context (st_heap s) fixed_ips subnets ->
  subnets_of E context (VList fixed_ips) s = (Ok (VList subnets), s).
Proof.
  intros H. unfold subnets_of.
  rewrite (bind_Ok _ _ s fixed_ips s) by reflexivity.
  assert (Hm : mapM (fun fixed_ip =>
                       let* subnet_id := getitem fixed_ip (VStr "subnet_id") in
                       lift (get_subnet E context subnet_id)) fixed_ips s
               = (Ok subnets, s)).
  { induction H as [| fixed_ip subnet fixed_ips subnets (sid & Hi & Hs) _ IH].
    - reflexivity.
    - cbn [mapM].
      rewrite (bind_Ok _ _ s subnet s).
      2:{ rewrite (bind_Ok _ _ _ _ _ (getitem_run _ _ _ _ Hi)).
          unfold lift. rewrite Hs. reflexivity. }
      rewrite (bind_Ok _ _ _ _ _ IH). reflexivity. }
  rewrite (bind_Ok _ _ _ _ _ Hm). reflexivity.
Qed.

(** The loop of [_agent_notification_arp]: one debug line and one cast per
    agent, in the order of the list. *)
Lemma broadcast_loop_run context method data agents s :
  for_each agents (fun l3_agent =>
    log DEBUG "Casting message %(method)s with topic %(topic)s"
        [("topic", VStr (topic l3_agent ++ "." ++ host l3_agent)%string);
         ("method", VStr method)] ;;
    emit (RpcCast (topic l3_agent) (host l3_agent) "1.2"
                  context method (dvr_arptable data))) s
  = (Ok tt, State (st_heap s)
                  (st_rpc s ++ map (cast_to context method data) agents)
                  (st_sched s)
                  (st_log s ++ map (cast_log method) agents)).
Proof.
  revert s. induction agents as [| a agents IH]; intros s.
  - simpl. unfold ret. rewrite !app_nil_r. destruct s; reflexivity.
  - simpl. unfold bind at 1. unfold bind at 1. unfold log, emit. simpl.
    rewrite IH. simpl. rewrite <- !app_assoc. reflexivity.
Qed.

Lemma agent_notification_arp_run E c method data s :
  l3plugin_registered E = true ->
  _agent_notification_arp E (VCtx c) method data s
  = (Ok VNone,
     State (st_heap s)
           (st_rpc s ++ map (cast_to (VCtx c) method data)
                            (get_l3_agents E (admin_context E c)))
           (st_sched s)
           (st_log s ++ map (cast_log method)
                            (get_l3_agents E (admin_context E c)))).
Proof.
  intros Hreg. unfold _agent_notification_arp, l3plugin_call. rewrite Hreg.
  change (match VCtx c with
          | VCtx c0 => ret (if is_admin c0 then VCtx c else VCtx (elevated E c0))
          | _ => raise AttributeError
          end) with (ret (A := pyval) (admin_context E c)).
  rewrite !bind_ret.
  rewrite (bind_Ok _ _ _ _ _ (broadcast_loop_run _ _ _ _ _)).
  reflexivity.
Qed.

Lemma is_vm_port_run s l d owner fixed_ips :
  st_heap s !! l = Some d ->
  d !! "device_owner" = Some (VStr owner) ->
  d !! "fixed_ips" = Some (VList fixed_ips) ->
  is_vm_port_with_ip_addresses (VRef l) s
  = (Ok (substring_of "compute:" owner && (0 <? length fixed_ips)%nat), s).
Proof.
  intros Hl Ho Hf. unfold is_vm_port_with_ip_addresses.
  rewrite (bind_Ok _ _ _ (VStr owner) s)
    by (apply getitem_run; exists l, d; auto).
  rewrite (bind_Ok _ _ _ (substring_of "compute:" owner) s) by reflexivity.
  rewrite (bind_Ok _ _ _ (VList fixed_ips) s)
    by (apply getitem_run; exists l, d; auto).
  rewrite (bind_Ok _ _ _ (length fixed_ips) s) by reflexivity.
  reflexivity.
Qed.

(** ** Ports that are not VM ports with addresses *)

(** C1. A port whose [device_owner] does not contain ["compute:"], or whose
    [fixed_ips] list is empty, is skipped by [add_port] and by [remove_port]:
    both return at once, the store is untouched, nothing is sent, nothing is
    logged. *)
Theorem ineligible_port_is_skipped E context l d owner fixed_ips s :
  st_heap s !! l = Some d ->
  d !! "device_owner" = Some (VStr owner) ->
  d !! "fixed_ips" = Some (VList fixed_ips) ->
  substring_of "compute:" owner = false \/ fixed_ips = [] ->
  add_port E context (VRef l) s = (Ok VNone, s) /\
  remove_port E context (VRef l) s = (Ok VNone, s).
Proof.
  intros Hl Ho Hf Hskip.
  pose proof (is_vm_port_run s l d owner fixed_ips Hl Ho Hf) as Hrun.
  assert (Hno : substring_of "compute:" owner && (0 <? length fixed_ips)%nat
                = false).
  { destruct Hskip as [-> | ->]; [reflexivity | apply andb_false_r]. }
  rewrite Hno in Hrun.
  unfold add_port, remove_port.
  rewrite !(bind_Ok _ _ _ _ _ Hrun). split; reflexivity.
Qed.

Lemma ineligible_port_is_skipped_witness :
  add_port Sample.E0 Sample.ctx (VRef 7) Sample.st0 = (Ok VNone, Sample.st0) /\
  remove_port Sample.E0 Sample.ctx (VRef 7) Sample.st0 = (Ok VNone, Sample.st0).
Proof.
  apply (ineligible_port_is_skipped Sample.E0 Sample.ctx 7 Sample.p2
           "network:router_interface" [VRef 2] Sample.st0).
  - reflexivity.
  - reflexivity.
  - reflexivity.
  - left. reflexivity.
Defined.

(** ** Broadcast *)

Lemma cast_to_addressed context method data a :
  addressed_cast context method data a (cast_to context method data a).
Proof.
  exists (dvr_arptable data). unfold cast_to, dvr_arptable.
  split; [reflexivity | split].
  - apply lookup_insert_eq.
  - rewrite lookup_insert_ne by discriminate. apply lookup_insert_eq.
Qed.

Lemma casts_addressed context method data agents :
  Forall2 (addressed_cast context method data) agents
          (map (cast_to context method data) agents).
Proof.
  induction agents; constructor; auto using cast_to_addressed.
Qed.

Lemma add_arp_entry_zero_run E c arp_table operation s :
  l3plugin_registered E = true ->
  _add_arp_entry E (VCtx c) (VInt 0) arp_table operation s
  = _agent_notification_arp E (VCtx c) "add_arp_entry" arp_table s.
Proof. reflexivity. Qed.

Lemma del_arp_entry_zero_run E c arp_table operation s :
  l3plugin_registered E = true ->
  _del_arp_entry E (VCtx c) (VInt 0) arp_table operation s
  = _agent_notification_arp E (VCtx c) "del_arp_entry" arp_table s.
Proof. reflexivity. Qed.

(** C2. A notification dispatched with router id 0 is broadcast: the calls
    made on the notifier are extended by exactly one cast per agent of
    [get_l3_agents], in the order of that list, each prepared for that agent's
    topic and host and carrying the payload [{'router_id': 0, 'arp_table': _}];
    the store is not touched.  This holds for the add and for the delete
    entry. *)
Theorem broadcast_reaches_each_agent_once E c arp_table operation s :
  l3plugin_registered E = true ->
  forall notify method,
    (notify = _add_arp_entry E /\ method = "add_arp_entry") \/
    (notify = _del_arp_entry E /\ method = "del_arp_entry") ->
    exists casts s',
      notify (VCtx c) (VInt 0) arp_table operation s = (Ok VNone, s') /\
      st_rpc s' = st_rpc s ++ casts /\
      st_heap s' = st_heap s /\
      Forall2 (addressed_cast (VCtx c) method arp_table)
              (get_l3_agents E (admin_context E c)) casts.
Proof.
  intros Hreg notify method Hn.
  exists (map (cast_to (VCtx c) method arp_table)
              (get_l3_agents E (admin_context E c))).
  eexists. split; [| split; [| split]].
  - destruct Hn as [[-> ->] | [-> ->]].
    + rewrite add_arp_entry_zero_run by assumption.
      apply agent_notification_arp_run. assumption.
    + rewrite del_arp_entry_zero_run by assumption.
      apply agent_notification_arp_run. assumption.
  - reflexivity.
  - reflexivity.
  - apply casts_addressed.
Qed.

Lemma broadcast_reaches_each_agent_once_witness :
  exists casts s',
    _add_arp_entry Sample.E0 Sample.ctx (VInt 0) (VRef 1) VNone Sample.st0
      = (Ok VNone, s') /\
    st_rpc s' = st_rpc Sample.st0 ++ casts /\
    st_heap s' = st_heap Sample.st0 /\
    Forall2 (addressed_cast Sample.ctx "add_arp_entry" (VRef 1))
            Sample.agents casts.
Proof.
  apply (broadcast_reaches_each_agent_once Sample.E0 Sample.user_ctx (VRef 1)
           VNone Sample.st0).
  - reflexivity.
  - left. split; reflexivity.
Defined.

(** ** Deleting a VM port *)

Lemma send_del_zero_run E c l d s :
  l3plugin_registered E = true ->
  st_heap s !! l = Some d ->
  _send_new_port_notify E (VCtx c) (VRef l) "del" (VInt 0) (VInt 0) s
  = (Ok VNone,
     State (<[l := <["segmentation_id" := VInt 0]> d]> (st_heap s))
           (st_rpc s ++ map (cast_to (VCtx c) "del_arp_entry" (VRef l))
                            (get_l3_agents E (admin_context E c)))
           (st_sched s)
           (st_log s ++ map (cast_log "del_arp_entry")
                            (get_l3_agents E (admin_context E c)))).
Proof.
  intros Hreg Hl. unfold _send_new_port_notify.
  rewrite (bind_Ok _ _ _ _ _ (setitem_run _ _ _ _ _ Hl)).
  change (String.eqb "del" "add") with false.
  change (String.eqb "del" "del") with true. cbv iota.
  rewrite del_arp_entry_zero_run by assumption.
  rewrite agent_notification_arp_run by assumption. reflexivity.
Qed.

Lemma remove_vm_port_run E c l d fixed_ips subnets s :
  l3plugin_registered E = true ->
  st_heap s !! l = Some d ->
  d !! "fixed_ips" = Some (VList fixed_ips) ->
  subnets_resolve E (VCtx c) (st_heap s) fixed_ips subnets ->
  remove_vm_port E (VCtx c) (VRef l) s
  = (Ok VNone,
     State (removed_port_store (st_heap s) l d subnets)
           (st_rpc s ++ map (cast_to (VCtx c) "del_arp_entry" (VRef l))
                            (get_l3_agents E (admin_context E c)))
           (st_sched s)
           (st_log s ++ map (cast_log "del_arp_entry")
                            (get_l3_agents E (admin_context E c)))).
Proof.
  intros Hreg Hl Hf Hsub. unfold remove_vm_port.
  rewrite (bind_Ok _ _ _ (VList fixed_ips) s)
    by (apply getitem_run; exists l, d; auto).
  rewrite (bind_Ok _ _ _ _ _ (subnets_of_run _ _ _ _ _ Hsub)).
  rewrite (bind_Ok _ _ _ _ _ (setitem_run _ _ _ _ _ Hl)).
  rewrite (send_del_zero_run E c l (<["subnets" := VList subnets]> d))
    by (try assumption; apply lookup_insert_eq).
  unfold removed_port_store, heap_of. cbn [st_heap st_rpc st_sched st_log].
  rewrite insert_insert_eq. reflexivity.
Qed.

Lemma remove_port_run E context l d owner fixed_ips s :
  st_heap s !! l = Some d ->
  d !! "device_owner" = Some (VStr owner) ->
  d !! "fixed_ips" = Some (VList fixed_ips) ->
  substring_of "compute:" owner = true ->
  fixed_ips <> [] ->
  remove_port E context (VRef l) s = remove_vm_port E context (VRef l) s.
Proof.
  intros Hl Ho Hf Hvm Hne. unfold remove_port.
  rewrite (bind_Ok _ _ _ _ _ (is_vm_port_run s l d owner fixed_ips Hl Ho Hf)).
  rewrite Hvm. destruct fixed_ips; [congruence | reflexivity].
Qed.

Lemma remove_port_ignores_binding E binding context port_dict s :
  remove_port (with_binding E binding) context port_dict s
  = remove_port E context port_dict s.
Proof. reflexivity. Qed.

(** C4. An eligible delete event (the port is a VM port with at least one
    fixed ip, its subnets resolve) is broadcast with [router_id] 0 in every
    payload, and the port the payloads carry has [segmentation_id] 0.  The ML2
    binding lookup plays no part: with any other binding lookup the outcome is
    the same. *)
Theorem delete_notification_ids_are_zero E c l d owner fixed_ips subnets s :
  l3plugin_registered E = true ->
  st_heap s !! l = Some d ->
  d !! "device_owner" = Some (VStr owner) ->
  d !! "fixed_ips" = Some (VList fixed_ips) ->
  substring_of "compute:" owner = true ->
  fixed_ips <> [] ->
  subnets_resolve E (VCtx c) (st_heap s) fixed_ips subnets ->
  exists casts s',
    remove_port E (VCtx c) (VRef l) s = (Ok VNone, s') /\
    st_rpc s' = st_rpc s ++ casts /\
    Forall2 (addressed_cast (VCtx c) "del_arp_entry" (VRef l))
            (get_l3_agents E (admin_context E c)) casts /\
    has_item (st_heap s') (VRef l) "segmentation_id" (VInt 0) /\
    forall binding,
      remove_port (with_binding E binding) (VCtx c) (VRef l) s = (Ok VNone, s').
Proof.
  intros Hreg Hl Ho Hf Hvm Hne Hsub.
  pose proof (remove_port_run E (VCtx c) l d owner fixed_ips s Hl Ho Hf Hvm Hne)
    as Hrun.
  rewrite (remove_vm_port_run E c l d fixed_ips subnets s Hreg Hl Hf Hsub)
    in Hrun.
  eexists _, _. split; [exact Hrun |]. cbn [st_rpc st_heap].
  split; [reflexivity |]. split; [apply casts_addressed |]. split.
  - eexists l, _. unfold removed_port_store. rewrite lookup_insert_eq.
    split; [reflexivity | split; [reflexivity | apply lookup_insert_eq]].
  - intros binding. rewrite remove_port_ignores_binding. exact Hrun.
Qed.

Lemma sample_subnets_resolve :
  subnets_resolve Sample.E0 Sample.ctx (st_heap Sample.st0) [VRef 2] [VRef 3].
Proof.
  constructor; [| constructor].
  exists (VStr "s1"). split; [| reflexivity].
  exists 2, Sample.fixed_ip1. split; [reflexivity | split; reflexivity].
Defined.

Lemma delete_notification_ids_are_zero_witness :
  exists casts s',
    remove_port Sample.E0 Sample.ctx (VRef 1) Sample.st0 = (Ok VNone, s') /\
    st_rpc s' = st_rpc Sample.st0 ++ casts /\
    Forall2 (addressed_cast Sample.ctx "del_arp_entry" (VRef 1))
            Sample.agents casts /\
    has_item (st_heap s') (VRef 1) "segmentation_id" (VInt 0) /\
    forall binding,
      remove_port (with_binding Sample.E0 binding) Sample.ctx (VRef 1)
                  Sample.st0 = (Ok VNone, s').
Proof.
  apply (delete_notification_ids_are_zero Sample.E0 Sample.user_ctx 1 Sample.p1
           "compute:nova" [VRef 2] [VRef 3] Sample.st0).
  - reflexivity.
  - reflexivity.
  - reflexivity.
  - reflexivity.
  - reflexivity.
  - discriminate.
  - exact sample_subnets_resolve.
Defined.

(** C10. [remove_vm_port] updates the caller's port dict in place: afterwards
    the dict at the same location has the keys [subnets] and
    [segmentation_id] (0), every other key of it is as before, every other
    object of the store is as before, and each payload sent carries, as its
    [arp_table], a reference to that same dict. *)
Theorem remove_vm_port_mutates_caller_dict E c l d fixed_ips subnets s :
  l3plugin_registered E = true ->
  st_heap s !! l = Some d ->
  d !! "fixed_ips" = Some (VList fixed_ips) ->
  subnets_resolve E (VCtx c) (st_heap s) fixed_ips subnets ->
  exists casts s' d',
    remove_vm_port E (VCtx c) (VRef l) s = (Ok VNone, s') /\
    st_heap s' !! l = Some d' /\
    d' !! "subnets" = Some (VList subnets) /\
    d' !! "segmentation_id" = Some (VInt 0) /\
    (forall key, key <> "subnets" -> key <> "segmentation_id" ->
                 d' !! key = d !! key) /\
    (forall l', l' <> l -> st_heap s' !! l' = st_heap s !! l') /\
    st_rpc s' = st_rpc s ++ casts /\
    Forall2 (fun (_ : agent) msg =>
               exists cast_topic cast_server cast_version method payload,
                 msg = RpcCast cast_topic cast_server cast_version (VCtx c)
                               method payload /\
                 payload !! "arp_table" = Some (VRef l))
            (get_l3_agents E (admin_context E c)) casts.
Proof.
  intros Hreg Hl Hf Hsub.
  eexists _, _, _.
  split; [apply (remove_vm_port_run E c l d fixed_ips subnets s); assumption |].
  cbn [st_heap st_rpc]. unfold removed_port_store.
  split; [apply lookup_insert_eq |].
  split; [rewrite lookup_insert_ne by discriminate; apply lookup_insert_eq |].
  split; [apply lookup_insert_eq |].
  split.
  { intros key H1 H2. rewrite !lookup_insert_ne by congruence. reflexivity. }
  split.
  { intros l' Hne. rewrite lookup_insert_ne by congruence. reflexivity. }
  split; [reflexivity |].
  induction (get_l3_agents E (admin_context E c)) as [| a agents IH];
    constructor; [| exact IH].
  destruct (cast_to_addressed (VCtx c) "del_arp_entry" (VRef l) a)
    as (payload & Hmsg & _ & Harp).
  exists (topic a), (host a), "1.2", "del_arp_entry", payload. auto.
Qed.

Lemma remove_vm_port_mutates_caller_dict_witness :
  exists casts s' d',
    remove_vm_port Sample.E0 Sample.ctx (VRef 1) Sample.st0 = (Ok VNone, s') /\
    st_heap s' !! 1 = Some d' /\
    d' !! "subnets" = Some (VList [VRef 3]) /\
    d' !! "segmentation_id" = Some (VInt 0) /\
    (forall key, key <> "subnets" -> key <> "segmentation_id" ->
                 d' !! key = Sample.p1 !! key) /\
    (forall l', l' <> 1 -> st_heap s' !! l' = st_heap Sample.st0 !! l') /\
    st_rpc s' = st_rpc Sample.st0 ++ casts /\
    Forall2 (fun (_ : agent) msg =>
               exists cast_topic cast_server cast_version method payload,
                 msg = RpcCast cast_topic cast_server cast_version Sample.ctx
                               method payload /\
                 payload !! "arp_table" = Some (VRef 1))
            Sample.agents casts.
Proof.
  apply (remove_vm_port_mutates_caller_dict Sample.E0 Sample.user_ctx 1
           Sample.p1 [VRef 2] [VRef 3] Sample.st0).
  - reflexivity.
  - reflexivity.
  - reflexivity.
  - exact sample_subnets_resolve.
Defined.

(** ** The binding resolver *)


(** Without a bound port context the resolver warns and returns [None]. *)
Lemma resolver_unbound E ctx port_id device_id s :
  get_bound_port_context E ctx port_id device_id = None ->
  get_ml2_port_bond_data E ctx port_id device_id s
  = (Ok None,
     State (st_heap s) (st_rpc s) (st_sched s)
           (st_log s ++
              [Log WARNING
                 "Device %(device)s requested by agent %(agent_id)s not found in database"
                 [("device", device_id); ("agent_id", port_id)]])).
Proof. intros H. unfold get_ml2_port_bond_data. rewrite H. reflexivity. Qed.

(** With a bound port context whose first segment is read, the resolver is
    the construction of [entry]. *)
Lemma resolver_bound E ctx port_id device_id pc segment s :
  get_bound_port_context E ctx port_id device_id = Some pc ->
  py_getitem (st_heap s) (network_segments pc) (VInt 0) = Ok segment ->
  get_ml2_port_bond_data E ctx port_id device_id s
  = bond_entry E port_id device_id (current pc) segment s.
Proof.
  intros H Hseg. unfold get_ml2_port_bond_data. rewrite H.
  rewrite (bind_Ok _ _ s (Ok segment) s); [reflexivity |].
  unfold attempt, getitem, with_heap. rewrite Hseg. reflexivity.
Qed.

(** With a bound port context whose first segment cannot be read, the
    resolver raises: a [KeyError] enters the handler, which reads the
    unassigned [segment]; any other exception is not caught.  Nothing is
    logged. *)
Lemma resolver_unreadable_segment E ctx port_id device_id pc e s :
  get_bound_port_context E ctx port_id device_id = Some pc ->
  py_getitem (st_heap s) (network_segments pc) (VInt 0) = Raise e ->
  get_ml2_port_bond_data E ctx port_id device_id s
  = (Raise (match e with KeyError => UnboundLocalError | _ => e end), s).
Proof.
  intros H Hseg. unfold get_ml2_port_bond_data. rewrite H.
  rewrite (bind_Ok _ _ s (Raise e) s).
  - destruct e; reflexivity.
  - unfold attempt, getitem, with_heap. rewrite Hseg. reflexivity.
Qed.






(** C6, on the code.  A bound port whose network has no segment at all
    ([network_segments] is the empty list) makes the resolver raise
    [IndexError], which [except KeyError] does not catch; a
    [network_segments] whose subscript raises [KeyError] reaches the handler,
    which raises [UnboundLocalError] on its first line.  In both cases the
    state is unchanged: no warning is logged and the empty dict is not
    returned. *)
Theorem unreadable_first_segment_raises :
  get_ml2_port_bond_data (Sample.E (VRef 4) (VList [])) Sample.ctx (VStr "p1")
    (VStr "hostA") Sample.st0 = (Raise IndexError, Sample.st0) /\
  get_ml2_port_bond_data (Sample.E (VRef 4) (VRef 5)) Sample.ctx (VStr "p1")
    (VStr "hostA") Sample.st0 = (Raise UnboundLocalError, Sample.st0).
Proof.
  split.
  - apply (resolver_unreadable_segment (Sample.E (VRef 4) (VList [])) Sample.ctx
             (VStr "p1") (VStr "hostA") (PortContext (VRef 4) (VList []))
             IndexError); reflexivity.
  - apply (resolver_unreadable_segment (Sample.E (VRef 4) (VRef 5)) Sample.ctx
             (VStr "p1") (VStr "hostA") (PortContext (VRef 4) (VRef 5))
             KeyError); reflexivity.
Qed.

(** ** Computations that only log *)

Create HintDb frame.

Lemma log_only_ret {A} (a : A) : log_only (ret a).
Proof. intros s. auto. Qed.

Lemma log_only_raise {A} e : log_only (raise (A := A) e).
Proof. intros s. auto. Qed.

Lemma log_only_lift {A} (r : result A) : log_only (lift r).
Proof. intros s. auto. Qed.

Lemma log_only_with_heap {A} (f : heap -> result A) : log_only (with_heap f).
Proof. intros s. auto. Qed.

Lemma log_only_log lvl fmt args : log_only (log lvl fmt args).
Proof. intros s. auto. Qed.

Lemma log_only_bind {A B} (m : M A) (k : A -> M B) :
  log_only m -> (forall a, log_only (k a)) -> log_only (bind m k).
Proof.
  intros Hm Hk s. unfold bind. specialize (Hm s).
  destruct (m s) as [[a | e] s1]; cbn [snd] in *.
  - destruct (Hk a s1) as (H1 & H2 & H3), Hm as (H4 & H5 & H6).
    repeat split; congruence.
  - exact Hm.
Qed.

Lemma log_only_attempt {A} (m : M A) : log_only m -> log_only (attempt m).
Proof.
  intros Hm s. unfold attempt. specialize (Hm s).
  destruct (m s) as [r s1]. exact Hm.
Qed.

Lemma log_only_getitem o k : log_only (getitem o k).
Proof. apply log_only_with_heap. Qed.

Lemma log_only_truthy v : log_only (truthy v).
Proof. apply log_only_with_heap. Qed.

Lemma log_only_read_local x : log_only (read_local x).
Proof. destruct x; [apply log_only_ret | apply log_only_raise]. Qed.

#[local] Hint Resolve log_only_ret log_only_raise log_only_lift
  log_only_with_heap log_only_log log_only_attempt log_only_getitem
  log_only_truthy log_only_read_local : frame.

Ltac log_only_steps :=
  repeat first
    [ apply log_only_bind; [| intros ?]
    | progress auto with frame
    | match goal with
      | |- log_only (match ?x with _ => _ end) => destruct x
      | |- log_only (if ?b then _ else _) => destruct b
      end ].

Lemma log_only_bond_entry E port_id device_id port segment :
  log_only (bond_entry E port_id device_id port segment).
Proof. unfold bond_entry. log_only_steps. Qed.

Lemma log_only_resolver E ctx port_id device_id :
  log_only (get_ml2_port_bond_data E ctx port_id device_id).
Proof.
  unfold get_ml2_port_bond_data.
  pose proof (log_only_bond_entry E port_id device_id) as Hb.
  log_only_steps; apply Hb.
Qed.

Lemma log_only_get_segmentation_id E context port :
  log_only (_get_segmentation_id E context port).
Proof.
  unfold _get_segmentation_id.
  pose proof (log_only_resolver E context) as Hr.
  log_only_steps; apply Hr.
Qed.

(** ** Adding a VM port *)

Lemma add_port_run E context l d owner fixed_ips s :
  st_heap s !! l = Some d ->
  d !! "device_owner" = Some (VStr owner) ->
  d !! "fixed_ips" = Some (VList fixed_ips) ->
  substring_of "compute:" owner = true ->
  fixed_ips <> [] ->
  add_port E context (VRef l) s = add_vm_port E context (VRef l) s.
Proof.
  intros Hl Ho Hf Hvm Hne. unfold add_port.
  rewrite (bind_Ok _ _ _ _ _ (is_vm_port_run s l d owner fixed_ips Hl Ho Hf)).
  rewrite Hvm. destruct fixed_ips; [congruence | reflexivity].
Qed.

(** [add_vm_port] up to the call of [_send_new_port_notify]: the port is
    fetched again, its subnets are stored in the fetched dict, and the router
    id is the fetched port's [device_id] for a router-interface owner and 0
    otherwise. *)
Lemma add_vm_port_run E context l d port_id ln dn nfixed_ips subnets nowner
  device_id segmentation_id s s2 :
  st_heap s !! l = Some d ->
  d !! "id" = Some port_id ->
  get_port E context port_id = Ok (VRef ln) ->
  st_heap s !! ln = Some dn ->
  dn !! "fixed_ips" = Some (VList nfixed_ips) ->
  subnets_resolve E context (st_heap s) nfixed_ips subnets ->
  dn !! "device_owner" = Some nowner ->
  dn !! "device_id" = Some device_id ->
  _get_segmentation_id E context (VRef ln)
    (heap_of s (<[ln := <["subnets" := VList subnets]> dn]> (st_heap s)))
    = (Ok segmentation_id, s2) ->
  add_vm_port E context (VRef l) s
  = _send_new_port_notify E context (VRef ln) "add"
      (if py_in_strs nowner (ROUTER_INTERFACE_OWNERS E)
       then device_id else VInt 0)
      segmentation_id s2.
Proof.
  intros Hl Hid Hget Hln Hnf Hsub Hno Hdev Hseg. unfold add_vm_port.
  rewrite (bind_Ok _ _ _ port_id s) by (apply getitem_run; exists l, d; auto).
  rewrite (bind_Ok _ _ s (VRef ln) s) by (unfold lift; rewrite Hget; reflexivity).
  rewrite (bind_Ok _ _ _ (VList nfixed_ips) s)
    by (apply getitem_run; exists ln, dn; auto).
  rewrite (bind_Ok _ _ _ _ _ (subnets_of_run _ _ _ _ _ Hsub)).
  rewrite (bind_Ok _ _ _ _ _ (setitem_run _ _ _ _ _ Hln)).
  set (s1 := heap_of s _) in *.
  assert (Hitem : forall key v, key <> "subnets" -> dn !! key = Some v ->
                                has_item (st_heap s1) (VRef ln) key v).
  { intros key v Hk Hv. exists ln, (<["subnets" := VList subnets]> dn).
    split; [reflexivity |]. split; [apply lookup_insert_eq |].
    rewrite lookup_insert_ne by congruence. exact Hv. }
  rewrite (bind_Ok _ _ _ nowner s1)
    by (apply getitem_run, Hitem; [discriminate | assumption]).
  destruct (py_in_strs nowner (ROUTER_INTERFACE_OWNERS E)).
  - rewrite (bind_Ok _ _ _ device_id s1)
      by (apply getitem_run, Hitem; [discriminate | assumption]).
    rewrite (bind_Ok _ _ _ _ _ Hseg). reflexivity.
  - rewrite bind_ret. rewrite (bind_Ok _ _ _ _ _ Hseg). reflexivity.
Qed.

(** [_send_new_port_notify] for an add, once the segmentation id is known. *)
Lemma send_add_run E c ln dn1 router_id segmentation_id s :
  l3plugin_registered E = true ->
  st_heap s !! ln = Some dn1 ->
  let h' := <[ln := <["segmentation_id" := segmentation_id]> dn1]> (st_heap s) in
  _send_new_port_notify E (VCtx c) (VRef ln) "add" router_id segmentation_id s
  = (Ok VNone,
     if py_truthy h' router_id then
       State h' (st_rpc s ++ [RpcAddArpEntry (VCtx c) router_id (VRef ln) VNone])
             (st_sched s) (st_log s)
     else
       State h'
             (st_rpc s ++ map (cast_to (VCtx c) "add_arp_entry" (VRef ln))
                              (get_l3_agents E (admin_context E c)))
             (st_sched s)
             (st_log s ++ map (cast_log "add_arp_entry")
                              (get_l3_agents E (admin_context E c)))).
Proof.
  intros Hreg Hl h'. unfold _send_new_port_notify.
  rewrite (bind_Ok _ _ _ _ _ (setitem_run _ _ _ _ _ Hl)).
  change (String.eqb "add" "add") with true. cbv iota.
  unfold _add_arp_entry.
  rewrite (bind_Ok _ _ _ (py_truthy h' router_id) (heap_of s h'))
    by reflexivity.
  destruct (py_truthy h' router_id).
  - reflexivity.
  - rewrite agent_notification_arp_run by assumption. reflexivity.
Qed.

(** C5. For an eligible add event the port is fetched again from the core
    plugin, and the notification handed to the notifier has, as router id,
    the fetched port's [device_id] when the fetched port's [device_owner] is
    one of [ROUTER_INTERFACE_OWNERS], and 0 in every other case.  The notifier
    sends a router id that is true as a targeted [add_arp_entry] with that
    very router id, and one that is not (0 in particular) as the broadcast
    whose payloads have [router_id] 0. *)
Theorem add_notification_router_id E c l d owner fixed_ips port_id ln dn
  nfixed_ips subnets nowner device_id segmentation_id s s2 :
  l3plugin_registered E = true ->
  st_heap s !! l = Some d ->
  d !! "device_owner" = Some (VStr owner) ->
  d !! "fixed_ips" = Some (VList fixed_ips) ->
  substring_of "compute:" owner = true ->
  fixed_ips <> [] ->
  d !! "id" = Some port_id ->
  get_port E (VCtx c) port_id = Ok (VRef ln) ->
  st_heap s !! ln = Some dn ->
  dn !! "fixed_ips" = Some (VList nfixed_ips) ->
  subnets_resolve E (VCtx c) (st_heap s) nfixed_ips subnets ->
  dn !! "device_owner" = Some nowner ->
  dn !! "device_id" = Some device_id ->
  _get_segmentation_id E (VCtx c) (VRef ln)
    (heap_of s (<[ln := <["subnets" := VList subnets]> dn]> (st_heap s)))
    = (Ok segmentation_id, s2) ->
  let router_id :=
    if py_in_strs nowner (ROUTER_INTERFACE_OWNERS E)
    then device_id else VInt 0 in
  let h' := added_port_store (st_heap s) ln dn subnets segmentation_id in
  add_port E (VCtx c) (VRef l) s
  = _send_new_port_notify E (VCtx c) (VRef ln) "add" router_id
      segmentation_id s2 /\
  exists sent s',
    add_port E (VCtx c) (VRef l) s = (Ok VNone, s') /\
    st_heap s' = h' /\
    st_rpc s' = st_rpc s ++ sent /\
    (py_truthy h' router_id = true ->
     sent = [RpcAddArpEntry (VCtx c) router_id (VRef ln) VNone]) /\
    (py_truthy h' router_id = false ->
     Forall2 (addressed_cast (VCtx c) "add_arp_entry" (VRef ln))
             (get_l3_agents E (admin_context E c)) sent).
Proof.
  intros Hreg Hl Ho Hf Hvm Hne Hid Hget Hln Hnf Hsub Hno Hdev Hseg router_id h'.
  assert (Hadd : add_port E (VCtx c) (VRef l) s
                 = _send_new_port_notify E (VCtx c) (VRef ln) "add" router_id
                     segmentation_id s2).
  { rewrite (add_port_run E (VCtx c) l d owner fixed_ips s) by assumption.
    apply (add_vm_port_run E (VCtx c) l d port_id ln dn nfixed_ips subnets
             nowner device_id); assumption. }
  split; [exact Hadd |].
  destruct (log_only_get_segmentation_id E (VCtx c) (VRef ln)
              (heap_of s (<[ln := <["subnets" := VList subnets]> dn]>
                            (st_heap s)))) as (Hh & Hr & _).
  rewrite Hseg in Hh, Hr. cbn [snd heap_of st_heap st_rpc] in Hh, Hr.
  assert (Hl2 : st_heap s2 !! ln = Some (<["subnets" := VList subnets]> dn))
    by (rewrite Hh; apply lookup_insert_eq).
  rewrite (send_add_run E c ln _ router_id segmentation_id s2 Hreg Hl2) in Hadd.
  assert (Hstore :
            <[ln := <["segmentation_id" := segmentation_id]>
                      (<["subnets" := VList subnets]> dn)]> (st_heap s2) = h').
  { rewrite Hh. unfold h', added_port_store. apply insert_insert_eq. }
  rewrite Hstore, Hr in Hadd.
  destruct (py_truthy h' router_id) eqn:Ht.
  - eexists _, _. split; [exact Hadd |]. cbn [st_heap st_rpc].
    split; [reflexivity |]. split; [reflexivity |].
    split; [intros _; reflexivity | discriminate].
  - eexists _, _. split; [exact Hadd |]. cbn [st_heap st_rpc].
    split; [reflexivity |]. split; [reflexivity |].
    split; [discriminate | intros _; apply casts_addressed].
Qed.

Lemma add_notification_router_id_witness :
  exists sent s',
    add_port Sample.E1 Sample.ctx (VRef 1) Sample.st0 = (Ok VNone, s') /\
    st_rpc s' = st_rpc Sample.st0 ++ sent /\
    sent = [RpcAddArpEntry Sample.ctx (VStr "r7") (VRef 7) VNone].
Proof.
  destruct (add_notification_router_id Sample.E1 Sample.user_ctx 1 Sample.p1
              "compute:nova" [VRef 2] (VStr "p1") 7 Sample.p2 [VRef 2]
              [VRef 3] (VStr "network:router_interface") (VStr "r7") (VInt 0)
              Sample.st0
              (snd (_get_segmentation_id Sample.E1 Sample.ctx (VRef 7)
                      (heap_of Sample.st0
                         (<[7 := <["subnets" := VList [VRef 3]]> Sample.p2]>
                            (st_heap Sample.st0))))))
    as [_ (sent & s' & Hrun & _ & Hsent & Htargeted & _)].
  - reflexivity.
  - reflexivity.
  - reflexivity.
  - reflexivity.
  - reflexivity.
  - discriminate.
  - reflexivity.
  - reflexivity.
  - reflexivity.
  - reflexivity.
  - exact sample_subnets_resolve.
  - reflexivity.
  - reflexivity.
  - vm_compute. reflexivity.
  - exists sent, s'. split; [exact Hrun |]. split; [exact Hsent |].
    apply Htargeted. reflexivity.
Defined.

(** ** The delete callback *)

Lemma has_item_removed_port_store h l d subnets o key v :
  h !! l = Some d ->
  key <> "subnets" -> key <> "segmentation_id" ->
  has_item h o key v ->
  has_item (removed_port_store h l d subnets) o key v.
Proof.
  intros Hl H1 H2 (l' & d' & -> & Hl' & Hk). unfold removed_port_store.
  destruct (decide (l = l')) as [<- | Hne].
  - eexists l, _. rewrite lookup_insert_eq.
    split; [reflexivity | split; [reflexivity |]].
    rewrite !lookup_insert_ne by congruence. congruence.
  - exists l', d'. rewrite lookup_insert_ne by assumption. auto.
Qed.

Lemma remove_port_total E c l d owner fixed_ips subnets s :
  l3plugin_registered E = true ->
  st_heap s !! l = Some d ->
  d !! "device_owner" = Some (VStr owner) ->
  d !! "fixed_ips" = Some (VList fixed_ips) ->
  subnets_resolve E (VCtx c) (st_heap s) fixed_ips subnets ->
  remove_port E (VCtx c) (VRef l) s
  = (Ok VNone,
     if substring_of "compute:" owner && (0 <? length fixed_ips)%nat
     then State (removed_port_store (st_heap s) l d subnets)
                (st_rpc s ++ map (cast_to (VCtx c) "del_arp_entry" (VRef l))
                                 (get_l3_agents E (admin_context E c)))
                (st_sched s)
                (st_log s ++ map (cast_log "del_arp_entry")
                                 (get_l3_agents E (admin_context E c)))
     else s).
Proof.
  intros Hreg Hl Ho Hf Hsub.
  destruct (substring_of "compute:" owner && (0 <? length fixed_ips)%nat)
    eqn:Hel.
  - apply andb_true_iff in Hel as [Hvm Hlen].
    rewrite (remove_port_run E (VCtx c) l d owner fixed_ips s Hl Ho Hf Hvm)
      by (intros ->; discriminate).
    apply (remove_vm_port_run E c l d fixed_ips subnets s); assumption.
  - unfold remove_port.
    rewrite (bind_Ok _ _ _ _ _ (is_vm_port_run s l d owner fixed_ips Hl Ho Hf)).
    rewrite Hel. reflexivity.
Qed.

(** The loop over [removed_routers]: one [router_deleted] per entry, with the
    entry's router id; the agent id is read and dropped. *)
Lemma removed_routers_loop_run context entries router_ids s :
  Forall2 (removed_router_entry (st_heap s)) entries router_ids ->
  for_each entries (fun router =>
    let* agent_id := getitem router (VStr "agent_id") in
    let* router_id := getitem router (VStr "router_id") in
    remove_router_from_l3_agent context agent_id router_id ;; ret tt) s
  = (Ok tt, State (st_heap s)
                  (st_rpc s ++ map (RpcRouterDeleted context) router_ids)
                  (st_sched s) (st_log s)).
Proof.
  intros H. remember (st_heap s) as h eqn:Hh. revert s Hh.
  induction H as [| entry router_id entries router_ids (agent_id & Ha & Hr) _ IH];
    intros s ->.
  - cbn [for_each map]. unfold ret. rewrite app_nil_r. destruct s; reflexivity.
  - cbn [for_each map].
    rewrite (bind_Ok _ _ s tt
               (State (st_heap s)
                      (st_rpc s ++ [RpcRouterDeleted context router_id])
                      (st_sched s) (st_log s))).
    + rewrite IH by reflexivity. cbn [st_heap st_rpc st_sched st_log].
      rewrite <- app_assoc. reflexivity.
    + rewrite (bind_Ok _ _ _ _ _ (getitem_run _ _ _ _ Ha)).
      rewrite (bind_Ok _ _ _ _ _ (getitem_run _ _ _ _ Hr)).
      reflexivity.
Qed.




Lemma sample_removed_entry :
  Forall2 (removed_router_entry (st_heap Sample.st0)) [VRef 6] [VStr "r7"].
Proof.
  constructor; [| constructor]. exists (VStr "a3").
  split; exists 6, (Sample.removed "a3");
    (split; [reflexivity | split; reflexivity]).
Defined.






(** ** Scheduling *)

(** X21. What [auto_schedule_routers] does, the registry and the scheduler
    being taken as functions that answer.  Without an enabled L3 agent on the
    host it returns [False] and the state is unchanged: nothing is bound and
    the scheduler is not asked.  With an agent it touches neither the store
    nor the notifier; a configured scheduler is asked once, with the
    candidate router ids, and what it answers is bound once, to that agent;
    without a scheduler nothing is bound.  The result is then that of the
    bare [return]. *)
Theorem auto_schedule_result E context host router_ids s :
  let r := auto_schedule_routers E context host router_ids s in
  (fst r = Ok (VBool false) <->
   get_enabled_agent_on_host E context (AGENT_TYPE_L3 E) host = None) /\
  (get_enabled_agent_on_host E context (AGENT_TYPE_L3 E) host = None ->
   r = (Ok (VBool false), s)) /\
  (forall l3_agent,
     get_enabled_agent_on_host E context (AGENT_TYPE_L3 E) host
       = Some l3_agent ->
     fst r = Ok VNone /\
     st_heap (snd r) = st_heap s /\ st_rpc (snd r) = st_rpc s /\
     st_sched (snd r)
     = st_sched s ++
       match router_scheduler E with
       | Some _get_routers_to_schedule =>
           [SchedGetRoutersToSchedule context router_ids;
            SchedBindRouters context
              (_get_routers_to_schedule context router_ids) l3_agent]
       | None => []
       end).
Proof.
  unfold auto_schedule_routers.
  destruct (get_enabled_agent_on_host E context (AGENT_TYPE_L3 E) host)
    as [a |].
  - cbv zeta. split; [| split].
    + split; [| discriminate].
      destruct (router_scheduler E); discriminate.
    + discriminate.
    + intros l3_agent [= <-].
      destruct (router_scheduler E) as [sched |]; cbn.
      * rewrite <- app_assoc. auto.
      * rewrite app_nil_r. auto.
  - cbv zeta. split; [| split].
    + split; reflexivity.
    + reflexivity.
    + discriminate.
Qed.

Lemma auto_schedule_result_witness :
  auto_schedule_routers Sample.E0 Sample.ctx (VStr "hostZ")
    (VList [VStr "r1"]) Sample.st0 = (Ok (VBool false), Sample.st0).
Proof.
  apply (proj1 (proj2 (auto_schedule_result Sample.E0 Sample.ctx (VStr "hostZ")
                         (VList [VStr "r1"]) Sample.st0))).
  reflexivity.
Defined.

(** C8, on the code.  On a host with an enabled L3 agent the candidate
    routers are handed to the scheduler and bound to the agent, and the
    function then ends in the bare [return] of its last line: the result is
    [None], which is not a boolean.  On a host without an agent the same
    function returns the boolean [False]. *)
Theorem auto_schedule_returns_None_with_agent :
  auto_schedule_routers Sample.E0 Sample.ctx (VStr "hostA")
    (VList [VStr "r1"]) Sample.st0
  = (Ok VNone,
     State (st_heap Sample.st0) []
           [SchedGetRoutersToSchedule Sample.ctx (VList [VStr "r1"]);
            SchedBindRouters Sample.ctx (VList [VStr "r1"])
                             (Agent "a1" "l3_agent" "hostA")]
           []) /\
  (~ exists b : bool,
       fst (auto_schedule_routers Sample.E0 Sample.ctx (VStr "hostA")
              (VList [VStr "r1"]) Sample.st0) = Ok (VBool b)) /\
  fst (auto_schedule_routers Sample.E0 Sample.ctx (VStr "hostZ")
         (VList [VStr "r1"]) Sample.st0) = Ok (VBool false).
Proof.
  split; [reflexivity |]. split; [| reflexivity].
  intros (b & Hb). discriminate Hb.
Qed.

(** * Further properties of the plugin *)

(** ** Items under updates of the store *)

Lemma has_item_insert h l d key v o key' v' :
  h !! l = Some d ->
  o <> VRef l \/ key' <> key ->
  has_item h o key' v' ->
  has_item (<[l := <[key := v]> d]> h) o key' v'.
Proof.
  intros Hl Hne (l' & d' & -> & Hl' & Hk).
  destruct (decide (l = l')) as [<- | Hll].
  - destruct Hne as [Hne | Hne]; [congruence |].
    exists l, (<[key := v]> d). rewrite lookup_insert_eq.
    split; [reflexivity | split; [reflexivity |]].
    rewrite lookup_insert_ne by congruence. congruence.
  - exists l', d'. rewrite lookup_insert_ne by assumption. auto.
Qed.

Lemma has_some_item_insert h l d key v o key' :
  h !! l = Some d ->
  (exists v', has_item h o key' v') ->
  exists v', has_item (<[l := <[key := v]> d]> h) o key' v'.
Proof.
  intros Hl (v' & l' & d' & -> & Hl' & Hk).
  assert (Hi : has_item h (VRef l') key' v') by (exists l', d'; auto).
  destruct (decide (l' = l)) as [-> | Ho];
    [destruct (decide (key' = key)) as [-> | Hne] |].
  - exists v, l, (<[key := v]> d).
    rewrite !lookup_insert_eq. auto.
  - exists v'. apply has_item_insert; auto.
  - exists v'. apply has_item_insert; [assumption | left; congruence | assumption].
Qed.

Lemma has_item_functional h o key v v' :
  has_item h o key v -> has_item h o key v' -> v = v'.
Proof.
  intros (l & d & -> & Hl & Hk) (l' & d' & [= <-] & Hl' & Hk'). congruence.
Qed.

Lemma bound_to_insert E context h l d key v port segment :
  h !! l = Some d ->
  key <> "id" -> key <> "binding:host_id" ->
  bound_to E context h port segment ->
  bound_to E context (<[l := <[key := v]> d]> h) port segment.
Proof.
  intros Hl H1 H2 (pid & hid & pc & others & Hid & Hhost & Hb & Hs & Hp & Hn & Hph).
  exists pid, hid, pc, others.
  split; [apply has_item_insert; auto |].
  split; [apply has_item_insert; auto |].
  split; [assumption |]. split; [assumption |].
  split; [intros k Hk; apply has_some_item_insert; auto |].
  split; apply has_some_item_insert; auto.
Qed.

(** ** The new-port callback *)

Lemma get_is_None_kwargs_get kwargs key :
  get_is_None kwargs key <-> kwargs_get kwargs key = VNone.
Proof.
  unfold get_is_None, kwargs_get. destruct (kwargs !! key) as [v |]; simpl.
  - split; [intros [H | [= ->]]; [discriminate | reflexivity] |].
    intros ->. auto.
  - split; auto.
Qed.

(** X1. The callback of AFTER_CREATE and AFTER_UPDATE drops an event that has
    no port, or no context, or neither of the two flags true: it returns
    without an exception, writes the debug line (and, for a port without
    context, the warning), and leaves the store, the notifier and the
    scheduler alone.  This needs no registered plugin. *)
Theorem new_port_event_is_dropped E resource event trigger (kwargs : pydict) s :
  get_is_None kwargs "port" \/
  get_is_None kwargs "context" \/
  (py_truthy (st_heap s) (kwargs_get kwargs "mac_address_updated") = false /\
   py_truthy (st_heap s) (kwargs_get kwargs "update_device_up") = false) ->
  _notify_l3_agent_new_port E resource event trigger kwargs s
  = (Ok VNone,
     State (st_heap s) (st_rpc s) (st_sched s)
           (st_log s ++
              received_line resource event ::
              match kwargs_get kwargs "port", kwargs_get kwargs "context" with
              | VNone, _ => []
              | port, VNone => [without_context_line resource event port]
              | _, _ => []
              end)).
Proof.
  intros Hdrop. unfold _notify_l3_agent_new_port.
  set (s1 := State (st_heap s) (st_rpc s) (st_sched s)
                   (st_log s ++ [received_line resource event])).
  rewrite (bind_Ok _ _ s tt s1) by reflexivity.
  assert (Hdone : forall lines,
             (Ok VNone, State (st_heap s) (st_rpc s) (st_sched s)
                              (st_log s1 ++ lines))
             = (Ok VNone, State (st_heap s) (st_rpc s) (st_sched s)
                                (st_log s ++ received_line resource event :: lines))).
  { intros lines. unfold s1. cbn [st_log]. rewrite <- app_assoc. reflexivity. }
  assert (Hquiet : forall port context,
            port <> VNone -> context <> VNone ->
            py_truthy (st_heap s) (kwargs_get kwargs "mac_address_updated") = false ->
            py_truthy (st_heap s) (kwargs_get kwargs "update_device_up") = false ->
            (let* a := truthy (kwargs_get kwargs "mac_address_updated") in
             let* b := truthy (kwargs_get kwargs "update_device_up") in
             if a || b then l3plugin_call E (add_port E context port)
             else ret VNone) s1
            = (Ok VNone, State (st_heap s) (st_rpc s) (st_sched s)
                               (st_log s ++ [received_line resource event]))).
  { intros port context _ _ Ha Hb.
    rewrite (bind_Ok _ _ s1 false s1)
      by (unfold truthy, with_heap; cbn [st_heap s1]; rewrite Ha; reflexivity).
    rewrite (bind_Ok _ _ s1 false s1)
      by (unfold truthy, with_heap; cbn [st_heap s1]; rewrite Hb; reflexivity).
    reflexivity. }
  destruct (kwargs_get kwargs "port") eqn:Hport;
    try (rewrite <- (Hdone []), app_nil_r; reflexivity);
    (destruct (kwargs_get kwargs "context") eqn:Hctx;
     [ rewrite <- Hdone; reflexivity | ..];
     (destruct Hdrop as [Hn | [Hn | [Ha Hb]]];
      [ apply get_is_None_kwargs_get in Hn; congruence
      | apply get_is_None_kwargs_get in Hn; congruence
      | apply Hquiet; [discriminate | discriminate | assumption | assumption] ])).
Qed.

Lemma new_port_event_is_dropped_witness :
  _notify_l3_agent_new_port Sample.E0 (VStr "port") (VStr "after_create") VNone
    Sample.create_event_without_context Sample.st0
  = (Ok VNone,
     State (st_heap Sample.st0) [] []
           [received_line (VStr "port") (VStr "after_create");
            without_context_line (VStr "port") (VStr "after_create") (VRef 1)]).
Proof.
  apply (new_port_event_is_dropped Sample.E0 (VStr "port") (VStr "after_create")
           VNone Sample.create_event_without_context Sample.st0).
  right. left. left. reflexivity.
Defined.

(** ** More on the binding resolver *)

Ltac item_of_store := eexists _, _; split; [reflexivity | split; reflexivity].

Lemma bond_entry_run E port_id device_id port segment network_id mac_address
  admin_state_up network_type segmentation_id physical_network fixed_ips
  device_owner s :
  has_item (st_heap s) port "network_id" network_id ->
  has_item (st_heap s) port "mac_address" mac_address ->
  has_item (st_heap s) port "admin_state_up" admin_state_up ->
  has_item (st_heap s) segment (NETWORK_TYPE E) network_type ->
  has_item (st_heap s) segment (SEGMENTATION_ID E) segmentation_id ->
  has_item (st_heap s) segment (PHYSICAL_NETWORK E) physical_network ->
  has_item (st_heap s) port "fixed_ips" fixed_ips ->
  has_item (st_heap s) port "device_owner" device_owner ->
  let entry :=
    binding_info device_id network_id port_id mac_address admin_state_up
      network_type segmentation_id physical_network fixed_ips device_owner in
  bond_entry E port_id device_id port segment s
  = (Ok (Some entry),
     State (st_heap s) (st_rpc s) (st_sched s)
           (st_log s ++ [Log DEBUG "Returning: %s" (map_to_list entry)])).
Proof.
  intros H1 H2 H3 H4 H5 H6 H7 H8 entry. unfold bond_entry.
  rewrite (bind_Ok _ _ _ _ _ (getitem_run _ _ _ _ H1)).
  rewrite (bind_Ok _ _ _ _ _ (getitem_run _ _ _ _ H2)).
  rewrite (bind_Ok _ _ _ _ _ (getitem_run _ _ _ _ H3)).
  rewrite (bind_Ok _ _ _ _ _ (getitem_run _ _ _ _ H4)).
  rewrite (bind_Ok _ _ _ _ _ (getitem_run _ _ _ _ H5)).
  rewrite (bind_Ok _ _ _ _ _ (getitem_run _ _ _ _ H6)).
  rewrite (bind_Ok _ _ _ _ _ (getitem_run _ _ _ _ H7)).
  rewrite (bind_Ok _ _ _ _ _ (getitem_run _ _ _ _ H8)).
  reflexivity.
Qed.

Lemma resolver_entry_run E ctx port_id device_id pc segment others
  network_id mac_address admin_state_up network_type segmentation_id
  physical_network fixed_ips device_owner s :
  get_bound_port_context E ctx port_id device_id = Some pc ->
  network_segments pc = VList (segment :: others) ->
  has_item (st_heap s) (current pc) "network_id" network_id ->
  has_item (st_heap s) (current pc) "mac_address" mac_address ->
  has_item (st_heap s) (current pc) "admin_state_up" admin_state_up ->
  has_item (st_heap s) segment (NETWORK_TYPE E) network_type ->
  has_item (st_heap s) segment (SEGMENTATION_ID E) segmentation_id ->
  has_item (st_heap s) segment (PHYSICAL_NETWORK E) physical_network ->
  has_item (st_heap s) (current pc) "fixed_ips" fixed_ips ->
  has_item (st_heap s) (current pc) "device_owner" device_owner ->
  let entry :=
    binding_info device_id network_id port_id mac_address admin_state_up
      network_type segmentation_id physical_network fixed_ips device_owner in
  get_ml2_port_bond_data E ctx port_id device_id s
  = (Ok (Some entry),
     State (st_heap s) (st_rpc s) (st_sched s)
           (st_log s ++ [Log DEBUG "Returning: %s" (map_to_list entry)])).
Proof.
  intros Hb Hs H1 H2 H3 H4 H5 H6 H7 H8 entry.
  rewrite (resolver_bound E ctx port_id device_id pc segment s Hb)
    by (rewrite Hs; reflexivity).
  apply bond_entry_run; assumption.
Qed.

(** X2. For a bound port the resolver returns the binding info: the device
    and port id it was called with, five fields copied from the bound port
    and the type, segmentation id and physical network of the first segment
    of the network.  Segments after the first play no part, one debug line is
    written and nothing else changes. *)
Theorem resolver_builds_binding_info E ctx port_id device_id pc segment others
  network_id mac_address admin_state_up network_type segmentation_id
  physical_network fixed_ips device_owner s :
  get_bound_port_context E ctx port_id device_id = Some pc ->
  network_segments pc = VList (segment :: others) ->
  has_item (st_heap s) (current pc) "network_id" network_id ->
  has_item (st_heap s) (current pc) "mac_address" mac_address ->
  has_item (st_heap s) (current pc) "admin_state_up" admin_state_up ->
  has_item (st_heap s) segment (NETWORK_TYPE E) network_type ->
  has_item (st_heap s) segment (SEGMENTATION_ID E) segmentation_id ->
  has_item (st_heap s) segment (PHYSICAL_NETWORK E) physical_network ->
  has_item (st_heap s) (current pc) "fixed_ips" fixed_ips ->
  has_item (st_heap s) (current pc) "device_owner" device_owner ->
  let entry :=
    binding_info device_id network_id port_id mac_address admin_state_up
      network_type segmentation_id physical_network fixed_ips device_owner in
  get_ml2_port_bond_data E ctx port_id device_id s
  = (Ok (Some entry),
     State (st_heap s) (st_rpc s) (st_sched s)
           (st_log s ++ [Log DEBUG "Returning: %s" (map_to_list entry)])) /\
  (forall key, is_Some (entry !! key) <-> key ∈ bond_keys).
Proof.
  intros Hb Hs H1 H2 H3 H4 H5 H6 H7 H8 entry. split.
  - apply (resolver_entry_run E ctx port_id device_id pc segment others);
      assumption.
  - intros key. unfold entry, binding_info, bond_keys.
    cbn [list_to_map foldr curry fst snd].
    rewrite !lookup_insert_is_Some', lookup_empty, is_Some_alt, !elem_of_cons,
      elem_of_nil.
    intuition congruence.
Qed.

Lemma resolver_builds_binding_info_witness :
  exists s',
    get_ml2_port_bond_data Sample.E0 Sample.ctx (VStr "p1") (VStr "hostA")
      Sample.st0
    = (Ok (Some (binding_info (VStr "hostA") (VStr "n1") (VStr "p1")
                   (VStr "fa:16:3e:00:00:01") (VBool true) (VStr "vxlan")
                   (VInt 1001) VNone (VList [VRef 2]) (VStr "compute:nova"))),
       s').
Proof.
  eexists.
  apply (resolver_builds_binding_info Sample.E0 Sample.ctx (VStr "p1")
           (VStr "hostA") (PortContext (VRef 4) (VList [VRef 5])) (VRef 5) []
           (VStr "n1") (VStr "fa:16:3e:00:00:01") (VBool true) (VStr "vxlan")
           (VInt 1001) VNone (VList [VRef 2]) (VStr "compute:nova") Sample.st0);
    first [reflexivity | item_of_store].
Defined.

(** X3. The resolver and the segmentation-id lookup have no effect but on
    the log: whatever they return or raise, the store, the calls on the
    notifier and the calls on the scheduler are as before. *)
Theorem resolver_only_logs E context port_id device_id port s :
  same_but_log s (snd (get_ml2_port_bond_data E context port_id device_id s)) /\
  same_but_log s (snd (_get_segmentation_id E context port s)).
Proof.
  split.
  - apply (log_only_resolver E context port_id device_id s).
  - apply (log_only_get_segmentation_id E context port s).
Qed.

Lemma binding_info_segmentation_id device network_id port_id mac_address
  admin_state_up network_type segmentation_id physical_network fixed_ips
  device_owner :
  binding_info device network_id port_id mac_address admin_state_up
    network_type segmentation_id physical_network fixed_ips device_owner
    !! "segmentation_id" = Some segmentation_id.
Proof.
  unfold binding_info. cbn [list_to_map foldr curry fst snd].
  rewrite !lookup_insert_ne by discriminate. apply lookup_insert_eq.
Qed.

Lemma segmentation_id_of_bound_port_run E context port segment
  segmentation_id s :
  bound_to E context (st_heap s) port segment ->
  has_item (st_heap s) segment (SEGMENTATION_ID E) segmentation_id ->
  exists lines,
    _get_segmentation_id E context port s
    = (Ok segmentation_id,
       State (st_heap s) (st_rpc s) (st_sched s) (st_log s ++ lines)).
Proof.
  intros (pid & hid & pc & others & Hid & Hhost & Hb & Hs & Hp & [nt Hnt] & [pn Hpn])
         Hsid.
  destruct (Hp "network_id") as [network_id H1];
    [rewrite !elem_of_cons; auto 10 |].
  destruct (Hp "mac_address") as [mac_address H2];
    [rewrite !elem_of_cons; auto 10 |].
  destruct (Hp "admin_state_up") as [admin_state_up H3];
    [rewrite !elem_of_cons; auto 10 |].
  destruct (Hp "fixed_ips") as [fixed_ips H7];
    [rewrite !elem_of_cons; auto 10 |].
  destruct (Hp "device_owner") as [device_owner H8];
    [rewrite !elem_of_cons; auto 10 |].
  eexists. unfold _get_segmentation_id.
  rewrite (bind_Ok _ _ _ _ _ (getitem_run _ _ _ _ Hid)).
  rewrite (bind_Ok _ _ _ _ _ (getitem_run _ _ _ _ Hhost)).
  rewrite (bind_Ok _ _ _ _ _
             (resolver_entry_run E context pid hid pc segment others
                network_id mac_address admin_state_up nt segmentation_id pn
                fixed_ips device_owner s Hb Hs H1 H2 H3 Hnt Hsid Hpn H7 H8)).
  rewrite binding_info_segmentation_id. reflexivity.
Qed.

Lemma bind_raises {A B} (m : M A) (k : A -> M B) s e s' :
  m s = (Raise e, s') -> bind m k s = (Raise e, s').
Proof. unfold bind. intros ->. reflexivity. Qed.

Lemma getitem_missing s l d key :
  st_heap s !! l = Some d -> d !! key = None ->
  getitem (VRef l) (VStr key) s = (Raise KeyError, s).
Proof.
  intros Hl Hk. unfold getitem, with_heap, py_getitem. rewrite Hl, Hk.
  reflexivity.
Qed.

(** X4. For a bound port the segmentation-id lookup returns the segmentation
    id of the first segment of the port's network, and only the log
    changes. *)
Theorem segmentation_id_of_bound_port E context port segment segmentation_id s :
  bound_to E context (st_heap s) port segment ->
  has_item (st_heap s) segment (SEGMENTATION_ID E) segmentation_id ->
  exists lines,
    _get_segmentation_id E context port s
    = (Ok segmentation_id,
       State (st_heap s) (st_rpc s) (st_sched s) (st_log s ++ lines)).
Proof. apply segmentation_id_of_bound_port_run. Qed.

Lemma sample_bound_to :
  bound_to Sample.E0 Sample.ctx (st_heap Sample.st0) (VRef 4) (VRef 5).
Proof.
  exists (VStr "p1"), (VStr "hostA"), (PortContext (VRef 4) (VList [VRef 5])), [].
  split; [item_of_store |]. split; [item_of_store |].
  split; [reflexivity |]. split; [reflexivity |].
  split.
  - intros key Hk. rewrite !elem_of_cons, elem_of_nil in Hk.
    destruct Hk as [-> | [-> | [-> | [-> | [-> | []]]]]];
      eexists; item_of_store.
  - split; eexists; item_of_store.
Defined.

Lemma segmentation_id_of_bound_port_witness :
  exists lines,
    _get_segmentation_id Sample.E0 Sample.ctx (VRef 4) Sample.st0
    = (Ok (VInt 1001), State (st_heap Sample.st0) [] [] ([] ++ lines)).
Proof.
  apply (segmentation_id_of_bound_port Sample.E0 Sample.ctx (VRef 4) (VRef 5)
           (VInt 1001) Sample.st0).
  - exact sample_bound_to.
  - item_of_store.
Defined.

(** X5. For a port without a bound context the segmentation-id lookup
    returns 0; the resolver's warning, with the host and the port id, is the
    only trace. *)
Theorem segmentation_id_of_unbound_port E context port port_id host_id s :
  has_item (st_heap s) port "id" port_id ->
  has_item (st_heap s) port "binding:host_id" host_id ->
  get_bound_port_context E context port_id host_id = None ->
  _get_segmentation_id E context port s
  = (Ok (VInt 0),
     State (st_heap s) (st_rpc s) (st_sched s)
           (st_log s ++ [not_found_line host_id port_id])).
Proof.
  intros Hid Hhost Hb. unfold _get_segmentation_id.
  rewrite (bind_Ok _ _ _ _ _ (getitem_run _ _ _ _ Hid)).
  rewrite (bind_Ok _ _ _ _ _ (getitem_run _ _ _ _ Hhost)).
  rewrite (bind_Ok _ _ _ _ _ (resolver_unbound _ _ _ _ _ Hb)). reflexivity.
Qed.

Lemma segmentation_id_of_unbound_port_witness :
  _get_segmentation_id Sample.E0 Sample.ctx (VRef 7) Sample.st0
  = (Ok (VInt 0),
     State (st_heap Sample.st0) [] []
           [not_found_line (VStr "hostA") (VStr "p2")]).
Proof.
  apply (segmentation_id_of_unbound_port Sample.E0 Sample.ctx (VRef 7)
           (VStr "p2") (VStr "hostA") Sample.st0).
  - item_of_store.
  - item_of_store.
  - reflexivity.
Defined.

(** X6. A port dict without the key [id] or without the key
    [binding:host_id] makes the segmentation-id lookup raise [KeyError]
    before the binding store is asked: the state, log included, is
    unchanged. *)
Theorem segmentation_id_needs_id_and_host E context l d s :
  st_heap s !! l = Some d ->
  d !! "id" = None \/ d !! "binding:host_id" = None ->
  _get_segmentation_id E context (VRef l) s = (Raise KeyError, s).
Proof.
  intros Hl Hmiss. unfold _get_segmentation_id.
  destruct (d !! "id") as [port_id |] eqn:Hid.
  - destruct Hmiss as [Hm | Hm]; [discriminate |].
    rewrite (bind_Ok _ _ _ port_id s) by (apply getitem_run; exists l, d; auto).
    apply bind_raises. apply (getitem_missing s l d); assumption.
  - apply bind_raises. apply (getitem_missing s l d); assumption.
Qed.

Lemma segmentation_id_needs_id_and_host_witness :
  _get_segmentation_id Sample.E0 Sample.ctx (VRef 2) Sample.st0
  = (Raise KeyError, Sample.st0).
Proof.
  apply (segmentation_id_needs_id_and_host Sample.E0 Sample.ctx 2
           Sample.fixed_ip1 Sample.st0).
  - reflexivity.
  - left. reflexivity.
Defined.

(** ** More on the notifier *)

(** X7. A notification with a router id that is true goes to the notifier's
    router-scoped entry and nowhere else: one [add_arp_entry] (or
    [del_arp_entry]) call with that router id, no cast, no look at the agent
    registry, whatever the context is and whether or not the L3 plugin is
    registered. *)
Theorem targeted_notification_is_not_broadcast E context router_id arp_table
  operation s :
  py_truthy (st_heap s) router_id = true ->
  _add_arp_entry E context router_id arp_table operation s
  = (Ok VNone,
     State (st_heap s)
           (st_rpc s ++ [RpcAddArpEntry context router_id arp_table operation])
           (st_sched s) (st_log s)) /\
  _del_arp_entry E context router_id arp_table operation s
  = (Ok VNone,
     State (st_heap s)
           (st_rpc s ++ [RpcDelArpEntry context router_id arp_table operation])
           (st_sched s) (st_log s)).
Proof.
  intros Ht. unfold _add_arp_entry, _del_arp_entry.
  rewrite !(bind_Ok _ _ s true s)
    by (unfold truthy, with_heap; rewrite Ht; reflexivity).
  split; reflexivity.
Qed.

Lemma targeted_notification_is_not_broadcast_witness :
  _add_arp_entry Sample.E0 VNone (VStr "r7") (VRef 1) VNone Sample.st0
  = (Ok VNone,
     State (st_heap Sample.st0)
           [RpcAddArpEntry VNone (VStr "r7") (VRef 1) VNone] [] []).
Proof.
  apply (targeted_notification_is_not_broadcast Sample.E0 VNone (VStr "r7")
           (VRef 1) VNone Sample.st0).
  reflexivity.
Defined.

Lemma broadcast_raises E context method data s :
  l3plugin_registered E = false \/ (forall c, context <> VCtx c) ->
  _agent_notification_arp E context method data s = (Raise AttributeError, s).
Proof.
  intros Hbad. unfold _agent_notification_arp.
  destruct context as [| | | | | | c];
    try reflexivity.
  destruct Hbad as [Hreg | Hctx]; [| destruct (Hctx c); reflexivity].
  rewrite bind_ret. unfold l3plugin_call. rewrite Hreg. reflexivity.
Qed.

(** X8. The store is updated before the broadcast is attempted and is not
    rolled back: when the broadcast of a delete fails, because no L3 plugin is
    registered or because the context is not a context object,
    [remove_vm_port] raises [AttributeError], nothing has been sent, and the
    caller's port dict already has [subnets] and [segmentation_id]. *)
Theorem failed_broadcast_keeps_the_update E context l d fixed_ips subnets s :
  st_heap s !! l = Some d ->
  d !! "fixed_ips" = Some (VList fixed_ips) ->
  subnets_resolve E context (st_heap s) fixed_ips subnets ->
  l3plugin_registered E = false \/ (forall c, context <> VCtx c) ->
  remove_vm_port E context (VRef l) s
  = (Raise AttributeError,
     State (removed_port_store (st_heap s) l d subnets)
           (st_rpc s) (st_sched s) (st_log s)).
Proof.
  intros Hl Hf Hsub Hbad. unfold remove_vm_port.
  rewrite (bind_Ok _ _ _ (VList fixed_ips) s)
    by (apply getitem_run; exists l, d; auto).
  rewrite (bind_Ok _ _ _ _ _ (subnets_of_run _ _ _ _ _ Hsub)).
  rewrite (bind_Ok _ _ _ _ _ (setitem_run _ _ _ _ _ Hl)).
  unfold _send_new_port_notify.
  rewrite (bind_Ok _ _ _ _ _
             (setitem_run _ l (<["subnets" := VList subnets]> d) _ _
                (lookup_insert_eq _ _ _))).
  change (String.eqb "del" "add") with false.
  change (String.eqb "del" "del") with true. cbv iota.
  unfold _del_arp_entry.
  match goal with
  | |- bind (truthy (VInt 0)) _ ?s1 = _ =>
      rewrite (bind_Ok _ _ s1 false s1) by reflexivity
  end.
  rewrite broadcast_raises by assumption.
  unfold removed_port_store, heap_of. cbn [st_heap st_rpc st_sched st_log].
  rewrite insert_insert_eq. reflexivity.
Qed.

Lemma failed_broadcast_keeps_the_update_witness :
  remove_vm_port Sample.E0 VNone (VRef 1) Sample.st0
  = (Raise AttributeError,
     State (removed_port_store (st_heap Sample.st0) 1 Sample.p1 [VRef 3])
           [] [] []).
Proof.
  apply (failed_broadcast_keeps_the_update Sample.E0 VNone 1 Sample.p1
           [VRef 2] [VRef 3] Sample.st0).
  - reflexivity.
  - reflexivity.
  - constructor; [| constructor].
    exists (VStr "s1"). split; [item_of_store | reflexivity].
  - right. discriminate.
Defined.

(** X9. [_send_new_port_notify] with an action that is neither ["add"] nor
    ["del"] stores the segmentation id in the port dict and then raises
    [UnboundLocalError], the notify action being unset; nothing is sent. *)
Theorem unknown_action_raises_after_the_store E context l d action router_id
  segmentation_id s :
  st_heap s !! l = Some d ->
  action <> "add" -> action <> "del" ->
  _send_new_port_notify E context (VRef l) action router_id segmentation_id s
  = (Raise UnboundLocalError,
     heap_of s (<[l := <["segmentation_id" := segmentation_id]> d]> (st_heap s))).
Proof.
  intros Hl Hadd Hdel. unfold _send_new_port_notify.
  rewrite (bind_Ok _ _ _ _ _ (setitem_run _ _ _ _ _ Hl)).
  apply String.eqb_neq in Hadd, Hdel. rewrite Hadd, Hdel. reflexivity.
Qed.

Lemma unknown_action_raises_after_the_store_witness :
  _send_new_port_notify Sample.E0 Sample.ctx (VRef 1) "update" (VInt 0)
    (VInt 7) Sample.st0
  = (Raise UnboundLocalError,
     heap_of Sample.st0
       (<[1 := <["segmentation_id" := VInt 7]> Sample.p1]>
          (st_heap Sample.st0))).
Proof.
  apply (unknown_action_raises_after_the_store Sample.E0 Sample.ctx 1 Sample.p1
           "update" (VInt 0) (VInt 7) Sample.st0).
  - reflexivity.
  - discriminate.
  - discriminate.
Defined.

(** ** Eligibility *)

Lemma prefix_spec a b :
  String.prefix a b = true <-> exists post, b = String.append a post.
Proof.
  revert b. induction a as [| c a IH]; intros b.
  - split; [intros _; exists b; reflexivity | intros _; destruct b; reflexivity].
  - destruct b as [| c' b]; cbn [String.prefix String.append].
    + split; [discriminate | intros (post & Hp); discriminate].
    + destruct (Ascii.ascii_dec c c') as [-> | Hne].
      * rewrite IH. split; intros (post & Hp); exists post.
        -- rewrite Hp. reflexivity.
        -- injection Hp as ->. reflexivity.
      * split; [discriminate |]. intros (post & Hp). injection Hp as -> _.
        destruct Hne. reflexivity.
Qed.

Lemma substring_of_spec needle hay :
  substring_of needle hay = true <->
  exists pre post, hay = String.append pre (String.append needle post).
Proof.
  induction hay as [| c hay IH]; cbn [substring_of].
  - rewrite orb_false_r, prefix_spec. split.
    + intros (post & Hp). exists EmptyString, post. exact Hp.
    + intros (pre & post & Hp). destruct pre; [| discriminate].
      exists post. exact Hp.
  - rewrite orb_true_iff, prefix_spec, IH. split.
    + intros [(post & Hp) | (pre & post & Hp)].
      * exists EmptyString, post. exact Hp.
      * exists (String c pre), post. cbn [String.append]. rewrite Hp.
        reflexivity.
    + intros (pre & post & Hp). destruct pre as [| c' pre];
        cbn [String.append] in Hp.
      * left. exists post. exact Hp.
      * right. exists pre, post. injection Hp as _ ->. reflexivity.
Qed.

(** X10. The eligibility test reads the port and changes nothing; it answers
    true exactly when the ["compute:"] marker occurs somewhere in the
    [device_owner] string and the [fixed_ips] list is not empty. *)
Theorem eligibility_of_a_port s l d owner fixed_ips :
  st_heap s !! l = Some d ->
  d !! "device_owner" = Some (VStr owner) ->
  d !! "fixed_ips" = Some (VList fixed_ips) ->
  exists eligible,
    is_vm_port_with_ip_addresses (VRef l) s = (Ok eligible, s) /\
    (eligible = true <->
     (exists pre post,
        owner = String.append pre (String.append "compute:" post)) /\
     fixed_ips <> []).
Proof.
  intros Hl Ho Hf. eexists.
  split; [exact (is_vm_port_run s l d owner fixed_ips Hl Ho Hf) |].
  rewrite andb_true_iff, substring_of_spec.
  destruct fixed_ips as [| fixed_ip fixed_ips]; cbn [length Nat.ltb Nat.leb].
  - split; [intros [_ Hlt]; discriminate | intros [_ Hne]; congruence].
  - split; intros [Hmark _]; (split; [exact Hmark | congruence]).
Qed.

Lemma eligibility_of_a_port_witness :
  exists eligible,
    is_vm_port_with_ip_addresses (VRef 1) Sample.st0
      = (Ok eligible, Sample.st0) /\
    (eligible = true <->
     (exists pre post,
        "compute:nova" = String.append pre (String.append "compute:" post)) /\
     [VRef 2] <> []).
Proof.
  apply (eligibility_of_a_port Sample.st0 1 Sample.p1 "compute:nova" [VRef 2]);
    reflexivity.
Defined.

(** X11. Both fields are read before they are combined: a port dict without
    [device_owner], or with a [device_owner] string (a VM port or not) and
    without [fixed_ips], makes [add_port] and [remove_port] raise [KeyError]
    with the state unchanged, instead of being skipped. *)
Theorem port_without_owner_or_ips_raises E context l d s :
  st_heap s !! l = Some d ->
  d !! "device_owner" = None \/
  ((exists owner, d !! "device_owner" = Some (VStr owner)) /\
   d !! "fixed_ips" = None) ->
  add_port E context (VRef l) s = (Raise KeyError, s) /\
  remove_port E context (VRef l) s = (Raise KeyError, s).
Proof.
  intros Hl Hmiss.
  assert (Hraise : is_vm_port_with_ip_addresses (VRef l) s = (Raise KeyError, s)).
  { unfold is_vm_port_with_ip_addresses.
    destruct Hmiss as [Ho | [(owner & Ho) Hf]].
    - apply bind_raises. apply (getitem_missing s l d); assumption.
    - rewrite (bind_Ok _ _ _ (VStr owner) s)
        by (apply getitem_run; exists l, d; auto).
      rewrite (bind_Ok _ _ _ (substring_of "compute:" owner) s) by reflexivity.
      apply bind_raises. apply (getitem_missing s l d); assumption. }
  unfold add_port, remove_port. rewrite !(bind_raises _ _ _ _ _ Hraise).
  split; reflexivity.
Qed.

Lemma port_without_owner_or_ips_raises_witness :
  add_port Sample.E0 Sample.ctx (VRef 6) Sample.st0
    = (Raise KeyError, Sample.st0) /\
  remove_port Sample.E0 Sample.ctx (VRef 6) Sample.st0
    = (Raise KeyError, Sample.st0).
Proof.
  apply (port_without_owner_or_ips_raises Sample.E0 Sample.ctx 6
           (Sample.removed "a3") Sample.st0).
  - reflexivity.
  - left. reflexivity.
Defined.

(** ** Failures of the core plugin *)

Lemma subnets_of_raises E context s resolved subnets bad rest e :
  subnets_resolve E context (st_heap s) resolved subnets ->
  (let* subnet_id := getitem bad (VStr "subnet_id") in
   lift (get_subnet E context subnet_id)) s = (Raise e, s) ->
  subnets_of E context (VList (resolved ++ bad :: rest)) s = (Raise e, s).
Proof.
  intros Hres Hbad. unfold subnets_of.
  rewrite (bind_Ok _ _ s (resolved ++ bad :: rest) s) by reflexivity.
  apply bind_raises.
  induction Hres as [| fixed_ip subnet resolved subnets (sid & Hi & Hs) _ IH].
  - cbn [app mapM]. apply bind_raises. exact Hbad.
  - cbn [app mapM].
    rewrite (bind_Ok _ _ s subnet s).
    + apply bind_raises. exact IH.
    + rewrite (bind_Ok _ _ _ _ _ (getitem_run _ _ _ _ Hi)).
      unfold lift. rewrite Hs. reflexivity.
Qed.

(** X12. Subnets are resolved before anything is written or sent: when one
    fixed ip of the port has no [subnet_id], or names a subnet for which the
    core plugin raises, [remove_vm_port] raises that exception and the state
    is unchanged, whatever was resolved before it. *)
Theorem unresolvable_subnet_aborts_delete E context l d resolved subnets bad
  rest e s :
  st_heap s !! l = Some d ->
  d !! "fixed_ips" = Some (VList (resolved ++ bad :: rest)) ->
  subnets_resolve E context (st_heap s) resolved subnets ->
  (exists subnet_id,
     has_item (st_heap s) bad "subnet_id" subnet_id /\
     get_subnet E context subnet_id = Raise e) \/
  (exists lb db,
     bad = VRef lb /\ st_heap s !! lb = Some db /\ db !! "subnet_id" = None /\
     e = KeyError) ->
  remove_vm_port E context (VRef l) s = (Raise e, s).
Proof.
  intros Hl Hf Hres Hbad. unfold remove_vm_port.
  rewrite (bind_Ok _ _ _ (VList (resolved ++ bad :: rest)) s)
    by (apply getitem_run; exists l, d; auto).
  apply bind_raises. apply (subnets_of_raises E context s resolved subnets);
    [assumption |].
  destruct Hbad as [(sid & Hi & Hs) | (lb & db & -> & Hlb & Hk & ->)].
  - rewrite (bind_Ok _ _ _ _ _ (getitem_run _ _ _ _ Hi)).
    unfold lift. rewrite Hs. reflexivity.
  - apply bind_raises. apply (getitem_missing s lb db); assumption.
Qed.

Lemma unresolvable_subnet_aborts_delete_witness :
  remove_vm_port Sample.E0 Sample.ctx (VRef 6)
    (State (<[6 := <["fixed_ips" := VList [VRef 2; VRef 3]]> (Sample.removed "a3")]>
              (st_heap Sample.st0)) [] [] [])
  = (Raise KeyError,
     State (<[6 := <["fixed_ips" := VList [VRef 2; VRef 3]]> (Sample.removed "a3")]>
              (st_heap Sample.st0)) [] [] []).
Proof.
  apply (unresolvable_subnet_aborts_delete Sample.E0 Sample.ctx 6
           (<["fixed_ips" := VList [VRef 2; VRef 3]]> (Sample.removed "a3"))
           [VRef 2] [VRef 3] (VRef 3) [] KeyError).
  - reflexivity.
  - reflexivity.
  - constructor; [| constructor].
    exists (VStr "s1"). split; [item_of_store | reflexivity].
  - right. eexists 3, _. repeat split; reflexivity.
Defined.

(** X13. An eligible add event whose port the core plugin no longer has
    (its [get_port] raises) ends with that exception and an unchanged
    state. *)
Theorem failed_fetch_aborts_add E context l d owner fixed_ips port_id e s :
  st_heap s !! l = Some d ->
  d !! "device_owner" = Some (VStr owner) ->
  d !! "fixed_ips" = Some (VList fixed_ips) ->
  substring_of "compute:" owner = true ->
  fixed_ips <> [] ->
  d !! "id" = Some port_id ->
  get_port E context port_id = Raise e ->
  add_port E context (VRef l) s = (Raise e, s).
Proof.
  intros Hl Ho Hf Hvm Hne Hid Hget.
  rewrite (add_port_run E context l d owner fixed_ips s) by assumption.
  unfold add_vm_port.
  rewrite (bind_Ok _ _ _ port_id s) by (apply getitem_run; exists l, d; auto).
  apply bind_raises. unfold lift. rewrite Hget. reflexivity.
Qed.

Lemma failed_fetch_aborts_add_witness :
  add_port Sample.E0 Sample.ctx (VRef 1)
    (State (<[1 := <["id" := VStr "gone"]> Sample.p1]> (st_heap Sample.st0))
           [] [] [])
  = (Raise (CollaboratorError "PortNotFound"),
     State (<[1 := <["id" := VStr "gone"]> Sample.p1]> (st_heap Sample.st0))
           [] [] []).
Proof.
  apply (failed_fetch_aborts_add Sample.E0 Sample.ctx 1
           (<["id" := VStr "gone"]> Sample.p1) "compute:nova" [VRef 2]
           (VStr "gone")).
  - reflexivity.
  - reflexivity.
  - reflexivity.
  - reflexivity.
  - discriminate.
  - reflexivity.
  - reflexivity.
Defined.

(** ** More on the delete callback *)

(** X14. The delete callback needs its three keyword arguments and a
    registered L3 plugin before it does anything: without [context], [port]
    or [removed_routers] it raises [KeyError], and with the three of them but
    no registered plugin it raises [AttributeError]; in both cases the state
    is unchanged. *)
Theorem delete_event_preconditions E event resource trigger (kwargs : pydict) s :
  (kwargs !! "context" = None \/ kwargs !! "port" = None \/
   kwargs !! "removed_routers" = None ->
   _notify_l3_agent_delete_port E event resource trigger kwargs s
   = (Raise KeyError, s)) /\
  (is_Some (kwargs !! "context") -> is_Some (kwargs !! "port") ->
   is_Some (kwargs !! "removed_routers") ->
   l3plugin_registered E = false ->
   _notify_l3_agent_delete_port E event resource trigger kwargs s
   = (Raise AttributeError, s)).
Proof.
  unfold _notify_l3_agent_delete_port, kwargs_item, l3plugin_call. split.
  - intros Hmiss.
    destruct (kwargs !! "context") as [context |]; [| reflexivity].
    rewrite bind_ret.
    destruct (kwargs !! "port") as [port |]; [| reflexivity].
    rewrite bind_ret.
    destruct (kwargs !! "removed_routers") as [removed |]; [| reflexivity].
    destruct Hmiss as [H | [H | H]]; discriminate.
  - intros [context ->] [port ->] [removed ->] ->. reflexivity.
Qed.

Lemma delete_event_preconditions_witness :
  _notify_l3_agent_delete_port Sample.E0 (VStr "after_delete") (VStr "port")
    VNone (<["port" := VRef 7]> (<["removed_routers" := VList []]> ∅))
    Sample.st0
  = (Raise KeyError, Sample.st0).
Proof.
  apply (proj1 (delete_event_preconditions Sample.E0 (VStr "after_delete")
                  (VStr "port") VNone
                  (<["port" := VRef 7]> (<["removed_routers" := VList []]> ∅))
                  Sample.st0)).
  left. reflexivity.
Defined.

(** The callback once [remove_port] has returned: the interface update for a
    router-interface owner, then the loop over the removed routers. *)
Lemma delete_port_split E event resource trigger (kwargs : pydict) context port
  entries owner device_id s s1 :
  kwargs !! "context" = Some context ->
  kwargs !! "port" = Some port ->
  kwargs !! "removed_routers" = Some (VList entries) ->
  l3plugin_registered E = true ->
  remove_port E context port s = (Ok VNone, s1) ->
  has_item (st_heap s1) port "device_owner" (VStr owner) ->
  (py_in_strs (VStr owner) (ROUTER_INTERFACE_OWNERS E) = true ->
   has_item (st_heap s1) port "device_id" device_id) ->
  _notify_l3_agent_delete_port E event resource trigger kwargs s
  = (for_each entries (fun router =>
       let* agent_id := getitem router (VStr "agent_id") in
       let* router_id := getitem router (VStr "router_id") in
       remove_router_from_l3_agent context agent_id router_id ;; ret tt) ;;
     ret VNone)
      (State (st_heap s1)
             (st_rpc s1 ++
                if py_in_strs (VStr owner) (ROUTER_INTERFACE_OWNERS E)
                then [RpcRoutersUpdated context [device_id] "del_interface"
                                        (<["port" := port]> ∅)]
                else [])
             (st_sched s1) (st_log s1)).
Proof.
  intros Hctx Hport Hrem Hreg Hrun Ho Hdev.
  unfold _notify_l3_agent_delete_port, kwargs_item.
  rewrite Hctx, Hport, Hrem, !bind_ret.
  unfold l3plugin_call. rewrite Hreg.
  rewrite (bind_Ok _ _ _ _ _ Hrun).
  rewrite (bind_Ok _ _ _ _ _ (getitem_run _ _ _ _ Ho)).
  destruct (py_in_strs (VStr owner) (ROUTER_INTERFACE_OWNERS E)).
  - unfold delete_router_interface.
    set (s2 := State (st_heap s1) _ (st_sched s1) (st_log s1)).
    rewrite (bind_Ok _ _ s1 VNone s2).
    2:{ rewrite (bind_Ok _ _ _ _ _ (getitem_run _ _ _ _ (Hdev eq_refl))).
        reflexivity. }
    rewrite (bind_Ok _ _ _ entries s2) by reflexivity. reflexivity.
  - rewrite bind_ret.
    rewrite (bind_Ok _ _ _ entries s1) by reflexivity.
    rewrite app_nil_r. destruct s1; reflexivity.
Qed.

(** X15. Deleting a port that is not a VM port with addresses leaves the
    store alone and sends, in this order, the [del_interface] update of the
    port's router when its owner is a router-interface owner (router ids: the
    port's [device_id]; data: the port itself), and one [router_deleted] per
    removed router.  No broadcast is made, so any context will do. *)
Theorem delete_of_a_non_vm_port E event resource trigger (kwargs : pydict)
  context l d owner fixed_ips device_id entries router_ids s :
  kwargs !! "context" = Some context ->
  kwargs !! "port" = Some (VRef l) ->
  kwargs !! "removed_routers" = Some (VList entries) ->
  l3plugin_registered E = true ->
  st_heap s !! l = Some d ->
  d !! "device_owner" = Some (VStr owner) ->
  d !! "fixed_ips" = Some (VList fixed_ips) ->
  substring_of "compute:" owner = false \/ fixed_ips = [] ->
  (py_in_strs (VStr owner) (ROUTER_INTERFACE_OWNERS E) = true ->
   d !! "device_id" = Some device_id) ->
  Forall2 (removed_router_entry (st_heap s)) entries router_ids ->
  _notify_l3_agent_delete_port E event resource trigger kwargs s
  = (Ok VNone,
     State (st_heap s)
           (st_rpc s ++
              (if py_in_strs (VStr owner) (ROUTER_INTERFACE_OWNERS E)
               then [RpcRoutersUpdated context [device_id] "del_interface"
                                       (<["port" := VRef l]> ∅)]
               else []) ++
              map (RpcRouterDeleted context) router_ids)
           (st_sched s) (st_log s)).
Proof.
  intros Hctx Hport Hrem Hreg Hl Ho Hf Hskip Hdev Hent.
  assert (Hrun : remove_port E context (VRef l) s = (Ok VNone, s)).
  { unfold remove_port.
    rewrite (bind_Ok _ _ _ _ _ (is_vm_port_run s l d owner fixed_ips Hl Ho Hf)).
    destruct Hskip as [-> | ->]; [reflexivity |].
    rewrite andb_false_r. reflexivity. }
  rewrite (delete_port_split E event resource trigger kwargs context (VRef l)
             entries owner device_id s s Hctx Hport Hrem Hreg Hrun)
    by (try intros Hin; exists l, d; auto).
  set (s2 := State (st_heap s) _ (st_sched s) (st_log s)).
  rewrite (bind_Ok _ _ _ _ _
             (removed_routers_loop_run context entries router_ids s2 Hent)).
  unfold ret, s2. cbn [st_heap st_rpc st_sched st_log].
  rewrite <- app_assoc. reflexivity.
Qed.

Lemma delete_of_a_non_vm_port_witness :
  _notify_l3_agent_delete_port Sample.E0 (VStr "after_delete") (VStr "port")
    VNone (Sample.delete_event (VRef 6)) Sample.st0
  = (Ok VNone,
     State (st_heap Sample.st0)
           [RpcRoutersUpdated Sample.ctx [VStr "r7"] "del_interface"
                              (<["port" := VRef 7]> ∅);
            RpcRouterDeleted Sample.ctx (VStr "r7")]
           [] []).
Proof.
  apply (delete_of_a_non_vm_port Sample.E0 (VStr "after_delete") (VStr "port")
           VNone (Sample.delete_event (VRef 6)) Sample.ctx 7 Sample.p2
           "network:router_interface" [VRef 2] (VStr "r7") [VRef 6]
           [VStr "r7"] Sample.st0).
  - reflexivity.
  - reflexivity.
  - reflexivity.
  - reflexivity.
  - reflexivity.
  - reflexivity.
  - reflexivity.
  - left. reflexivity.
  - reflexivity.
  - exact sample_removed_entry.
Defined.

Lemma getitem_lacks s o key :
  lacks_item (st_heap s) o key -> getitem o (VStr key) s = (Raise KeyError, s).
Proof.
  intros (l & d & -> & Hl & Hk). apply (getitem_missing s l d); assumption.
Qed.

Lemma lacks_item_removed_port_store h l d subnets o key :
  h !! l = Some d ->
  key <> "subnets" -> key <> "segmentation_id" ->
  lacks_item h o key ->
  lacks_item (removed_port_store h l d subnets) o key.
Proof.
  intros Hl H1 H2 (l' & d' & -> & Hl' & Hk). unfold removed_port_store.
  destruct (decide (l = l')) as [<- | Hne].
  - eexists l, _. rewrite lookup_insert_eq.
    split; [reflexivity | split; [reflexivity |]].
    rewrite !lookup_insert_ne by congruence. congruence.
  - exists l', d'. rewrite lookup_insert_ne by assumption. auto.
Qed.

(** The loop over [removed_routers] stops at the first entry without an
    agent id or without a router id. *)
Lemma removed_routers_loop_raises context good router_ids bad rest s :
  Forall2 (removed_router_entry (st_heap s)) good router_ids ->
  lacks_item (st_heap s) bad "agent_id" \/
  ((exists agent_id, has_item (st_heap s) bad "agent_id" agent_id) /\
   lacks_item (st_heap s) bad "router_id") ->
  for_each (good ++ bad :: rest) (fun router =>
    let* agent_id := getitem router (VStr "agent_id") in
    let* router_id := getitem router (VStr "router_id") in
    remove_router_from_l3_agent context agent_id router_id ;; ret tt) s
  = (Raise KeyError,
     State (st_heap s)
           (st_rpc s ++ map (RpcRouterDeleted context) router_ids)
           (st_sched s) (st_log s)).
Proof.
  intros H Hbad. remember (st_heap s) as h eqn:Hh. revert s Hh.
  induction H as [| entry router_id good router_ids (agent_id & Ha & Hr) _ IH];
    intros s ->.
  - cbn [app for_each map]. rewrite app_nil_r.
    replace (State (st_heap s) (st_rpc s) (st_sched s) (st_log s)) with s
      by (destruct s; reflexivity).
    apply bind_raises.
    destruct Hbad as [Hl | [(agent_id & Ha) Hl]].
    + apply bind_raises. apply getitem_lacks. exact Hl.
    + rewrite (bind_Ok _ _ _ _ _ (getitem_run _ _ _ _ Ha)).
      apply bind_raises. apply getitem_lacks. exact Hl.
  - cbn [app for_each map].
    rewrite (bind_Ok _ _ s tt
               (State (st_heap s)
                      (st_rpc s ++ [RpcRouterDeleted context router_id])
                      (st_sched s) (st_log s))).
    + rewrite IH by reflexivity. cbn [st_heap st_rpc st_sched st_log].
      rewrite <- app_assoc. reflexivity.
    + rewrite (bind_Ok _ _ _ _ _ (getitem_run _ _ _ _ Ha)).
      rewrite (bind_Ok _ _ _ _ _ (getitem_run _ _ _ _ Hr)).
      reflexivity.
Qed.

(** X16. The agent id of a removed-router entry is not used, yet it must be
    there: at the first entry of [removed_routers] that has no [agent_id], or
    no [router_id], the delete callback raises [KeyError].  What was done
    before stays done: the port's own notifications and one [router_deleted]
    for each earlier entry have been sent; the later entries are never
    looked at. *)
Theorem removed_router_without_ids_aborts E event resource trigger
  (kwargs : pydict) c l d owner fixed_ips subnets device_id good router_ids bad
  rest s :
  kwargs !! "context" = Some (VCtx c) ->
  kwargs !! "port" = Some (VRef l) ->
  kwargs !! "removed_routers" = Some (VList (good ++ bad :: rest)) ->
  l3plugin_registered E = true ->
  st_heap s !! l = Some d ->
  d !! "device_owner" = Some (VStr owner) ->
  d !! "fixed_ips" = Some (VList fixed_ips) ->
  d !! "device_id" = Some device_id ->
  subnets_resolve E (VCtx c) (st_heap s) fixed_ips subnets ->
  Forall2 (removed_router_entry (st_heap s)) good router_ids ->
  lacks_item (st_heap s) bad "agent_id" \/
  ((exists agent_id, has_item (st_heap s) bad "agent_id" agent_id) /\
   lacks_item (st_heap s) bad "router_id") ->
  let eligible :=
    substring_of "compute:" owner && (0 <? length fixed_ips)%nat in
  _notify_l3_agent_delete_port E event resource trigger kwargs s
  = (Raise KeyError,
     State (if eligible then removed_port_store (st_heap s) l d subnets
            else st_heap s)
           (st_rpc s ++ delete_port_rpc E c l owner eligible device_id
                     ++ map (RpcRouterDeleted (VCtx c)) router_ids)
           (st_sched s)
           (st_log s ++ if eligible
                        then map (cast_log "del_arp_entry")
                                 (get_l3_agents E (admin_context E c))
                        else [])).
Proof.
  intros Hctx Hport Hrem Hreg Hl Ho Hf Hdev Hsub Hgood Hbad eligible.
  pose proof (remove_port_total E c l d owner fixed_ips subnets s
                Hreg Hl Ho Hf Hsub) as Hrun.
  fold eligible in Hrun. set (s1 := if eligible then _ else s) in Hrun.
  assert (Hkeep : forall o key v,
             key <> "subnets" -> key <> "segmentation_id" ->
             has_item (st_heap s) o key v -> has_item (st_heap s1) o key v).
  { intros o key v H1 H2 Hi. unfold s1. destruct eligible; [| exact Hi].
    apply has_item_removed_port_store; assumption. }
  assert (Hlack : forall o key,
             key <> "subnets" -> key <> "segmentation_id" ->
             lacks_item (st_heap s) o key -> lacks_item (st_heap s1) o key).
  { intros o key H1 H2 Hi. unfold s1. destruct eligible; [| exact Hi].
    apply lacks_item_removed_port_store; assumption. }
  assert (Hitem : forall key v, d !! key = Some v ->
                                has_item (st_heap s) (VRef l) key v)
    by (intros key v Hv; exists l, d; auto).
  rewrite (delete_port_split E event resource trigger kwargs (VCtx c) (VRef l)
             (good ++ bad :: rest) owner device_id s s1 Hctx Hport Hrem Hreg
             Hrun)
    by (try intros _; apply Hkeep, Hitem; (discriminate || assumption)).
  set (s2 := State (st_heap s1) _ (st_sched s1) (st_log s1)).
  assert (Hgood1 : Forall2 (removed_router_entry (st_heap s2)) good router_ids).
  { eapply Forall2_impl; [exact Hgood |].
    intros entry rid (aid & Ha & Hr). exists aid.
    split; apply Hkeep; (discriminate || assumption). }
  assert (Hbad1 : lacks_item (st_heap s2) bad "agent_id" \/
                  ((exists agent_id, has_item (st_heap s2) bad "agent_id" agent_id) /\
                   lacks_item (st_heap s2) bad "router_id")).
  { destruct Hbad as [Hb | [(aid & Ha) Hb]].
    - left. apply Hlack; (discriminate || assumption).
    - right. split; [exists aid; apply Hkeep; (discriminate || assumption) |].
      apply Hlack; (discriminate || assumption). }
  rewrite (bind_raises _ _ _ _ _
             (removed_routers_loop_raises (VCtx c) good router_ids bad rest s2
                Hgood1 Hbad1)).
  unfold s2, s1, delete_port_rpc.
  destruct eligible; cbn [st_heap st_rpc st_sched st_log];
    rewrite ?app_nil_r, <- ?app_assoc; reflexivity.
Qed.

Lemma removed_router_without_ids_aborts_witness :
  _notify_l3_agent_delete_port Sample.E0 (VStr "after_delete") (VStr "port")
    VNone (Sample.delete_event_of [VRef 6; VRef 3; VRef 8]) Sample.st0
  = (Raise KeyError,
     State (st_heap Sample.st0)
           [RpcRoutersUpdated Sample.ctx [VStr "r7"] "del_interface"
                              (<["port" := VRef 7]> ∅);
            RpcRouterDeleted Sample.ctx (VStr "r7")]
           [] []).
Proof.
  apply (removed_router_without_ids_aborts Sample.E0 (VStr "after_delete")
           (VStr "port") VNone (Sample.delete_event_of [VRef 6; VRef 3; VRef 8])
           Sample.user_ctx 7 Sample.p2 "network:router_interface" [VRef 2]
           [VRef 3] (VStr "r7") [VRef 6] [VStr "r7"] (VRef 3) [VRef 8]
           Sample.st0).
  - reflexivity.
  - reflexivity.
  - reflexivity.
  - reflexivity.
  - reflexivity.
  - reflexivity.
  - reflexivity.
  - reflexivity.
  - exact sample_subnets_resolve.
  - exact sample_removed_entry.
  - left. exists 3, Sample.subnet1. repeat split; reflexivity.
Defined.

(** ** Replaying a delete *)

Lemma subnets_resolve_removed_port_store E context h l d subnets0 fixed_ips
  subnets :
  h !! l = Some d ->
  subnets_resolve E context h fixed_ips subnets ->
  subnets_resolve E context (removed_port_store h l d subnets0) fixed_ips
    subnets.
Proof.
  intros Hl H. eapply Forall2_impl; [exact H |].
  intros fixed_ip subnet (sid & Hi & Hs). exists sid. split; [| exact Hs].
  apply has_item_removed_port_store; (discriminate || assumption).
Qed.

Lemma removed_port_store_twice h l d subnets :
  removed_port_store (removed_port_store h l d subnets) l
    (<["segmentation_id" := VInt 0]> (<["subnets" := VList subnets]> d))
    subnets
  = removed_port_store h l d subnets.
Proof.
  unfold removed_port_store. rewrite insert_insert_eq. f_equal.
  apply map_eq. intros key.
  destruct (decide (key = "segmentation_id")) as [-> | Hs].
  - rewrite !lookup_insert_eq. reflexivity.
  - rewrite !(lookup_insert_ne _ "segmentation_id") by congruence.
    destruct (decide (key = "subnets")) as [-> | Hn].
    + rewrite !lookup_insert_eq. reflexivity.
    + rewrite !lookup_insert_ne by congruence. reflexivity.
Qed.

(** X17. Delivering the same delete twice is harmless for the store and is
    not deduplicated on the wire: a second [remove_vm_port] on the port the
    first one updated succeeds, leaves the store exactly as the first left
    it, and sends the same broadcast once more. *)
Theorem replayed_delete_keeps_the_store E c l d fixed_ips subnets s :
  l3plugin_registered E = true ->
  st_heap s !! l = Some d ->
  d !! "fixed_ips" = Some (VList fixed_ips) ->
  subnets_resolve E (VCtx c) (st_heap s) fixed_ips subnets ->
  exists s1 s2,
    remove_vm_port E (VCtx c) (VRef l) s = (Ok VNone, s1) /\
    remove_vm_port E (VCtx c) (VRef l) s1 = (Ok VNone, s2) /\
    st_heap s2 = st_heap s1 /\
    st_rpc s1 = st_rpc s ++ map (cast_to (VCtx c) "del_arp_entry" (VRef l))
                                (get_l3_agents E (admin_context E c)) /\
    st_rpc s2 = st_rpc s1 ++ map (cast_to (VCtx c) "del_arp_entry" (VRef l))
                                 (get_l3_agents E (admin_context E c)).
Proof.
  intros Hreg Hl Hf Hsub. eexists _, _.
  split; [apply (remove_vm_port_run E c l d fixed_ips subnets s); assumption |].
  split.
  - apply (remove_vm_port_run E c l
             (<["segmentation_id" := VInt 0]> (<["subnets" := VList subnets]> d))
             fixed_ips subnets).
    + assumption.
    + cbn [st_heap]. unfold removed_port_store. apply lookup_insert_eq.
    + rewrite !lookup_insert_ne by discriminate. assumption.
    + cbn [st_heap]. apply subnets_resolve_removed_port_store; assumption.
  - cbn [st_heap st_rpc]. split; [apply removed_port_store_twice |].
    split; reflexivity.
Qed.

Lemma replayed_delete_keeps_the_store_witness :
  exists s1 s2,
    remove_vm_port Sample.E0 Sample.ctx (VRef 1) Sample.st0 = (Ok VNone, s1) /\
    remove_vm_port Sample.E0 Sample.ctx (VRef 1) s1 = (Ok VNone, s2) /\
    st_heap s2 = st_heap s1 /\
    st_rpc s1 = st_rpc Sample.st0 ++
                map (cast_to Sample.ctx "del_arp_entry" (VRef 1)) Sample.agents /\
    st_rpc s2 = st_rpc s1 ++
                map (cast_to Sample.ctx "del_arp_entry" (VRef 1)) Sample.agents.
Proof.
  apply (replayed_delete_keeps_the_store Sample.E0 Sample.user_ctx 1 Sample.p1
           [VRef 2] [VRef 3] Sample.st0).
  - reflexivity.
  - reflexivity.
  - reflexivity.
  - exact sample_subnets_resolve.
Defined.

(** ** A VM port comes up *)

(** The callback hands a port with a context and a true flag to [add_port],
    after the debug line. *)
Lemma new_port_forwards E resource event trigger (kwargs : pydict) c port s :
  kwargs !! "port" = Some port -> port <> VNone ->
  kwargs !! "context" = Some (VCtx c) ->
  py_truthy (st_heap s) (kwargs_get kwargs "mac_address_updated") = true \/
  py_truthy (st_heap s) (kwargs_get kwargs "update_device_up") = true ->
  l3plugin_registered E = true ->
  _notify_l3_agent_new_port E resource event trigger kwargs s
  = add_port E (VCtx c) port
      (State (st_heap s) (st_rpc s) (st_sched s)
             (st_log s ++ [received_line resource event])).
Proof.
  intros Hport Hnn Hctx Hflag Hreg. unfold _notify_l3_agent_new_port.
  set (s0 := State (st_heap s) (st_rpc s) (st_sched s)
                   (st_log s ++ [received_line resource event])).
  rewrite (bind_Ok _ _ s tt s0) by reflexivity.
  assert (Hp : kwargs_get kwargs "port" = port)
    by (unfold kwargs_get; rewrite Hport; reflexivity).
  assert (Hc : kwargs_get kwargs "context" = VCtx c)
    by (unfold kwargs_get; rewrite Hctx; reflexivity).
  rewrite Hp, Hc.
  assert (Hgo :
    (let* a := truthy (kwargs_get kwargs "mac_address_updated") in
     let* b := truthy (kwargs_get kwargs "update_device_up") in
     if a || b then l3plugin_call E (add_port E (VCtx c) port) else ret VNone) s0
    = add_port E (VCtx c) port s0).
  { rewrite (bind_Ok _ _ s0
               (py_truthy (st_heap s) (kwargs_get kwargs "mac_address_updated"))
               s0) by reflexivity.
    rewrite (bind_Ok _ _ s0
               (py_truthy (st_heap s) (kwargs_get kwargs "update_device_up"))
               s0) by reflexivity.
    unfold l3plugin_call. rewrite Hreg.
    destruct Hflag as [-> | ->]; [reflexivity |].
    rewrite orb_true_r. reflexivity. }
  destruct port; try exact Hgo. congruence.
Qed.

(** [add_vm_port] for a fetched port that is bound and is not a router
    interface: subnets and segmentation id are stored in the fetched dict and
    the port is broadcast. *)
Lemma add_vm_port_bound_run E c l d port_id ln dn nfixed_ips subnets nowner
  segment segmentation_id s :
  l3plugin_registered E = true ->
  st_heap s !! l = Some d ->
  d !! "id" = Some port_id ->
  get_port E (VCtx c) port_id = Ok (VRef ln) ->
  st_heap s !! ln = Some dn ->
  dn !! "fixed_ips" = Some (VList nfixed_ips) ->
  subnets_resolve E (VCtx c) (st_heap s) nfixed_ips subnets ->
  dn !! "device_owner" = Some nowner ->
  py_in_strs nowner (ROUTER_INTERFACE_OWNERS E) = false ->
  bound_to E (VCtx c) (st_heap s) (VRef ln) segment ->
  has_item (st_heap s) segment (SEGMENTATION_ID E) segmentation_id ->
  segment <> VRef ln ->
  exists lines,
    add_vm_port E (VCtx c) (VRef l) s
    = (Ok VNone,
       State (added_port_store (st_heap s) ln dn subnets segmentation_id)
             (st_rpc s ++ map (cast_to (VCtx c) "add_arp_entry" (VRef ln))
                              (get_l3_agents E (admin_context E c)))
             (st_sched s) (st_log s ++ lines)).
Proof.
  intros Hreg Hl Hid Hget Hln Hnf Hsub Hno Hnot Hbound Hsid Hseg.
  set (s1 := heap_of s (<[ln := <["subnets" := VList subnets]> dn]> (st_heap s))).
  destruct (segmentation_id_of_bound_port_run E (VCtx c) (VRef ln) segment
              segmentation_id s1) as [lines Hlookup].
  { unfold s1. cbn [heap_of st_heap].
    apply bound_to_insert; (discriminate || assumption). }
  { unfold s1. cbn [heap_of st_heap].
    apply has_item_insert; [assumption | left; assumption | assumption]. }
  exists (lines ++ map (cast_log "add_arp_entry")
                       (get_l3_agents E (admin_context E c))).
  unfold add_vm_port.
  rewrite (bind_Ok _ _ _ port_id s) by (apply getitem_run; exists l, d; auto).
  rewrite (bind_Ok _ _ s (VRef ln) s) by (unfold lift; rewrite Hget; reflexivity).
  rewrite (bind_Ok _ _ _ (VList nfixed_ips) s)
    by (apply getitem_run; exists ln, dn; auto).
  rewrite (bind_Ok _ _ _ _ _ (subnets_of_run _ _ _ _ _ Hsub)).
  rewrite (bind_Ok _ _ _ _ _ (setitem_run _ _ _ _ _ Hln)).
  fold s1.
  rewrite (bind_Ok _ _ _ nowner s1).
  2:{ apply getitem_run. exists ln, (<["subnets" := VList subnets]> dn).
      unfold s1. cbn [heap_of st_heap]. rewrite lookup_insert_eq.
      split; [reflexivity | split; [reflexivity |]].
      rewrite lookup_insert_ne by discriminate. assumption. }
  rewrite Hnot, bind_ret.
  rewrite (bind_Ok _ _ _ _ _ Hlookup).
  rewrite (send_add_run E c ln (<["subnets" := VList subnets]> dn) (VInt 0)
             segmentation_id _ Hreg)
    by (unfold s1; cbn [heap_of st_heap]; apply lookup_insert_eq).
  change (py_truthy _ (VInt 0)) with false. cbv iota.
  unfold s1, added_port_store. cbn [heap_of st_heap st_rpc st_sched st_log].
  rewrite insert_insert_eq, <- app_assoc. reflexivity.
Qed.

(** X18. A VM port comes up: the callback gets a port with "compute:" in its
    owner and a fixed ip, a context, and a true [mac_address_updated] or
    [update_device_up]; the core plugin has the port (not a router
    interface) with resolvable subnets, bound to a network whose first
    segment is [segment].  Then the callback returns normally and sends one
    [add_arp_entry] cast per L3 agent, with router id 0 and the fetched port
    as table; the fetched port dict has got the resolved subnets and the
    segment's segmentation id, and nothing else of the store has changed. *)
Theorem vm_port_up_is_broadcast E resource event trigger (kwargs : pydict) c l d
  owner fixed_ips port_id ln dn nfixed_ips subnets nowner segment
  segmentation_id s :
  kwargs !! "port" = Some (VRef l) ->
  kwargs !! "context" = Some (VCtx c) ->
  py_truthy (st_heap s) (kwargs_get kwargs "mac_address_updated") = true \/
  py_truthy (st_heap s) (kwargs_get kwargs "update_device_up") = true ->
  l3plugin_registered E = true ->
  st_heap s !! l = Some d ->
  d !! "device_owner" = Some (VStr owner) ->
  d !! "fixed_ips" = Some (VList fixed_ips) ->
  substring_of "compute:" owner = true ->
  fixed_ips <> [] ->
  d !! "id" = Some port_id ->
  get_port E (VCtx c) port_id = Ok (VRef ln) ->
  st_heap s !! ln = Some dn ->
  dn !! "fixed_ips" = Some (VList nfixed_ips) ->
  subnets_resolve E (VCtx c) (st_heap s) nfixed_ips subnets ->
  dn !! "device_owner" = Some nowner ->
  py_in_strs nowner (ROUTER_INTERFACE_OWNERS E) = false ->
  bound_to E (VCtx c) (st_heap s) (VRef ln) segment ->
  has_item (st_heap s) segment (SEGMENTATION_ID E) segmentation_id ->
  segment <> VRef ln ->
  exists lines,
    _notify_l3_agent_new_port E resource event trigger kwargs s
    = (Ok VNone,
       State (added_port_store (st_heap s) ln dn subnets segmentation_id)
             (st_rpc s ++ map (cast_to (VCtx c) "add_arp_entry" (VRef ln))
                              (get_l3_agents E (admin_context E c)))
             (st_sched s) (st_log s ++ lines)).
Proof.
  intros Hport Hctx Hflag Hreg Hl Ho Hf Hvm Hne Hid Hget Hln Hnf Hsub Hno Hnot
         Hbound Hsid Hseg.
  rewrite (new_port_forwards E resource event trigger kwargs c (VRef l) s)
    by (discriminate || assumption).
  set (s0 := State (st_heap s) (st_rpc s) (st_sched s) _).
  rewrite (add_port_run E (VCtx c) l d owner fixed_ips s0) by assumption.
  destruct (add_vm_port_bound_run E c l d port_id ln dn nfixed_ips subnets
              nowner segment segmentation_id s0) as [lines Hrun];
    try assumption.
  exists (received_line resource event :: lines). rewrite Hrun.
  unfold s0. cbn [st_heap st_rpc st_sched st_log].
  rewrite <- app_assoc. reflexivity.
Qed.

Lemma vm_port_up_is_broadcast_witness :
  exists lines,
    _notify_l3_agent_new_port Sample.E0 (VStr "port") (VStr "after_create")
      VNone (Sample.create_event (VBool true)) Sample.st0
    = (Ok VNone,
       State (added_port_store (st_heap Sample.st0) 4 Sample.p1 [VRef 3]
                (VInt 1001))
             (st_rpc Sample.st0 ++
                map (cast_to Sample.ctx "add_arp_entry" (VRef 4)) Sample.agents)
             [] (st_log Sample.st0 ++ lines)).
Proof.
  apply (vm_port_up_is_broadcast Sample.E0 (VStr "port") (VStr "after_create")
           VNone (Sample.create_event (VBool true)) Sample.user_ctx 1 Sample.p1
           "compute:nova" [VRef 2] (VStr "p1") 4 Sample.p1 [VRef 2] [VRef 3]
           (VStr "compute:nova") (VRef 5) (VInt 1001) Sample.st0).
  - reflexivity.
  - reflexivity.
  - left. reflexivity.
  - reflexivity.
  - reflexivity.
  - reflexivity.
  - reflexivity.
  - reflexivity.
  - discriminate.
  - reflexivity.
  - reflexivity.
  - reflexivity.
  - reflexivity.
  - exact sample_subnets_resolve.
  - reflexivity.
  - reflexivity.
  - exact sample_bound_to.
  - item_of_store.
  - discriminate.
Defined.

(** ** The handler [get_ports_by_subnet] *)

(** X19. When the parent handler answers with something that is not true (no
    ports: the empty list, or [None]), [get_ports_by_subnet] returns that
    answer as it is: no binding is looked up, nothing is logged, the state is
    unchanged.  An exception of the parent handler is passed on in the same
    way. *)
Theorem ports_by_subnet_of_no_ports E super_get_ports_by_subnet context
  (kwargs : pydict) s :
  (forall result,
     super_get_ports_by_subnet context kwargs = Ok result ->
     py_truthy (st_heap s) result = false ->
     get_ports_by_subnet E super_get_ports_by_subnet context kwargs s
     = (Ok result, s)) /\
  (forall e,
     super_get_ports_by_subnet context kwargs = Raise e ->
     get_ports_by_subnet E super_get_ports_by_subnet context kwargs s
     = (Raise e, s)).
Proof.
  unfold get_ports_by_subnet. split.
  - intros result Hsuper Hfalse.
    rewrite (bind_Ok _ _ s result s) by (unfold lift; rewrite Hsuper; reflexivity).
    rewrite (bind_Ok _ _ s false s)
      by (unfold truthy, with_heap; rewrite Hfalse; reflexivity).
    reflexivity.
  - intros e Hsuper. apply bind_raises. unfold lift. rewrite Hsuper.
    reflexivity.
Qed.

Lemma ports_by_subnet_of_no_ports_witness :
  get_ports_by_subnet Sample.E0 (Sample.super_ports (VList [])) Sample.ctx ∅
    Sample.st0
  = (Ok (VList []), Sample.st0).
Proof.
  apply (proj1 (ports_by_subnet_of_no_ports Sample.E0
                  (Sample.super_ports (VList [])) Sample.ctx ∅ Sample.st0));
    reflexivity.
Defined.








